(** * Parameters: the hierarchical parameter store of stretch.core.parameters

    A shallow embedding of the class [Parameters]
    (src/stretch_ai/src/stretch/core/parameters.py) and the properties its
    specification states about it.

    Python values are modelled by the inductive type [value].  A dictionary
    is an object with an identity: [get] hands out the dictionary it finds and
    [set] assigns inside the dictionary it reaches, so the same dictionary
    can come to sit under two keys, or inside itself.  A dictionary value is
    therefore a reference into a heap of dictionary objects, and an
    assignment updates the object in place.  The items of a dictionary are
    kept in insertion order, since [__str__] iterates over
    [self.data.items()].

    The dictionary [self.data] is the one made for the keyword arguments of
    the constructor; no method returns it, so no value refers to it and it is
    kept apart from the heap.

    Methods run in a state-and-exception monad: the state holds [self.data],
    the heap and the records emitted through the module's [logger]; a
    computation either returns a value or raises [KeyError] or [TypeError],
    and the state survives a raise as it does in Python. *)

From Stdlib Require Import List String Ascii Bool Arith ZArith Lia.
From Stdlib Require Import DecimalString.
Import ListNotations.

Local Open Scope list_scope.
Local Open Scope string_scope.

(** ** Values *)

(** The address of a dictionary object. *)
Definition loc : Type := nat.

(** The fragment of Python's values a loaded configuration holds: [None],
    booleans, integers, strings, lists and references to dictionaries. *)
#[warnings="-register-all"] Inductive value : Type :=
| VNone : value
| VBool : bool -> value
| VInt : Z -> value
| VStr : string -> value
| VList : list value -> value
| VDict : loc -> value.

(** The items of a dictionary with string keys, in insertion order. *)
Definition dict : Type := list (string * value).

(** The dictionary objects, by address. *)
Definition heap : Type := list dict.

(** The exceptions the methods can raise.  [KeyError] carries the key that
    was looked up. *)
Inductive exn : Type :=
| KeyError : string -> exn
| TypeError : exn.

Inductive result (A : Type) : Type :=
| Ok : A -> result A
| Raise : exn -> result A.

Arguments Ok {A} _.
Arguments Raise {A} _.

(** A record handed to [logger.warning]: the message and the extra positional
    argument of the call. *)
Inductive log_entry : Type :=
| LogWarning : string -> value -> log_entry.

(** ** Dictionaries in insertion order *)

(** [d[k]] as a partial function: the value bound to [k]. *)
Fixpoint dict_get (k : string) (d : dict) : option value :=
  match d with
  | [] => None
  | (k', v) :: d' => if String.eqb k k' then Some v else dict_get k d'
  end.

(** [k in d] for a dictionary [d]. *)
Definition dict_mem (k : string) (d : dict) : bool :=
  existsb (fun kv => String.eqb k (fst kv)) d.

(** [d[k] = v]: a bound key keeps its position and takes the new value, a new
    key is appended after the existing ones. *)
Fixpoint dict_set (k : string) (v : value) (d : dict) : dict :=
  match d with
  | [] => [(k, v)]
  | (k', v') :: d' =>
      if String.eqb k k' then (k', v) :: d' else (k', v') :: dict_set k v d'
  end.

(** ** The heap *)

(** The object at an address, if there is one. *)
Definition heap_get (l : loc) (h : heap) : option dict := nth_error h l.

(** The heap with the object at [l] replaced; only an existing object is
    replaced. *)
Fixpoint heap_set (l : loc) (d : dict) (h : heap) : heap :=
  match h with
  | [] => []
  | d0 :: h' =>
      match l with
      | O => d :: h'
      | S l' => d0 :: heap_set l' d h'
      end
  end.

(** ** Strings *)

(** [s] starts with [pre]. *)
Fixpoint starts_with (pre s : string) : bool :=
  match pre, s with
  | EmptyString, _ => true
  | String _ _, EmptyString => false
  | String a pre', String b s' => Ascii.eqb a b && starts_with pre' s'
  end.

(** [sub in s] for strings: [sub] occurs in [s] as a substring. *)
Fixpoint is_substring (sub s : string) : bool :=
  starts_with sub s
  || match s with
     | EmptyString => false
     | String _ s' => is_substring sub s'
     end.

(** [key.split("/")]: the segments between slashes, empty segments kept. *)
Fixpoint split_slash (s : string) : list string :=
  match s with
  | EmptyString => [EmptyString]
  | String c s' =>
      if Ascii.eqb c "/" then EmptyString :: split_slash s'
      else match split_slash s' with
           | [] => [String c EmptyString]
           | seg :: segs => String c seg :: segs
           end
  end.

(** ** The monad of methods *)

(** The state a method runs in: the items of the dictionary [self.data], the
    other dictionary objects, and the records the module-level logger has
    received so far, oldest first. *)
Record world : Type := mkWorld {
  self_data : dict;
  objects : heap;
  logged : list log_entry
}.

Definition M (A : Type) : Type := world -> result A * world.

Definition ret {A : Type} (a : A) : M A := fun w => (Ok a, w).

Definition raise {A : Type} (e : exn) : M A := fun w => (Raise e, w).

Definition bind {A B : Type} (m : M A) (f : A -> M B) : M B :=
  fun w =>
    match m w with
    | (Ok a, w') => f a w'
    | (Raise e, w') => (Raise e, w')
    end.

Declare Scope py_scope.
Delimit Scope py_scope with py.
Notation "x <- c1 ;; c2" := (bind c1 (fun x => c2))
  (at level 61, c1 at next level, right associativity) : py_scope.
Notation "c1 ;; c2" := (bind c1 (fun _ => c2))
  (at level 61, right associativity) : py_scope.
Local Open Scope py_scope.

(** The state as it is, for a method that needs to look at it. *)
Definition read_world : M world := fun w => (Ok w, w).

(** Modelled from the spec: the module [stretch.utils.logger] that provides
    [logger] is not among the sources.  By section 6 of the specification a
    call [logger.warning(msg, arg)] emits one warning-level record made of
    what it was given and has no other observable effect. *)
Definition logger_warning (msg : string) (arg : value) : M unit :=
  fun w =>
    (Ok tt,
     mkWorld (self_data w) (objects w) (logged w ++ [LogWarning msg arg])%list).

(** ** What a variable such as [data] refers to *)

(** The local variable [data] of [get] and [set] refers either to the
    dictionary [self.data] or to a value found while descending. *)
Inductive place : Type :=
| Root : place
| At : value -> place.

(** The items of the dictionary a place refers to; [None] when it does not
    refer to a dictionary. *)
Definition contents (w : world) (data : place) : option dict :=
  match data with
  | Root => Some (self_data w)
  | At (VDict l) => heap_get l (objects w)
  | At _ => None
  end.

(** The state with the dictionary a place refers to given new items: the
    effect of an assignment inside that dictionary. *)
Definition put (w : world) (data : place) (d : dict) : world :=
  match data with
  | Root => mkWorld d (objects w) (logged w)
  | At (VDict l) => mkWorld (self_data w) (heap_set l d (objects w)) (logged w)
  | At _ => w
  end.

(** ** Python's operators on values *)

(** The outcome of [key in data], for a string [key]: membership of the key
    in a dictionary, substring test in a string, equality with an element in
    a list; the other values are not containers and the test raises
    [TypeError].  (A reference to no object does not arise in Python; the
    operators are made to raise on it, and nothing below draws on that.) *)
Definition in_at (w : world) (key : string) (data : place) : result bool :=
  match data with
  | At (VStr s) => Ok (is_substring key s)
  | At (VList l) =>
      Ok (existsb (fun x => match x with
                            | VStr s => String.eqb s key
                            | _ => false
                            end) l)
  | At VNone | At (VBool _) | At (VInt _) => Raise TypeError
  | Root | At (VDict _) =>
      match contents w data with
      | Some d => Ok (dict_mem key d)
      | None => Raise TypeError
      end
  end.

(** The outcome of [data[key]], for a string [key]: the bound value or
    [KeyError] in a dictionary; a string or a list is only indexed by
    integers and the other values are not subscriptable, both are a
    [TypeError]. *)
Definition item_at (w : world) (data : place) (key : string) : result value :=
  match contents w data with
  | Some d =>
      match dict_get key d with
      | Some v => Ok v
      | None => Raise (KeyError key)
      end
  | None => Raise TypeError
  end.

(** The outcome of [len(x)]. *)
Definition len_at (w : world) (x : value) : result nat :=
  match x with
  | VStr s => Ok (String.length s)
  | VList l => Ok (List.length l)
  | VDict l =>
      match heap_get l (objects w) with
      | Some d => Ok (List.length d)
      | None => Raise TypeError
      end
  | VNone | VBool _ | VInt _ => Raise TypeError
  end.

(** [key in data]. *)
Definition py_in (key : string) (data : place) : M bool :=
  fun w => (in_at w key data, w).

(** [data[key]]. *)
Definition py_getitem (data : place) (key : string) : M value :=
  fun w => (item_at w data key, w).

(** [data[key] = v], for a string [key]: an assignment inside the dictionary
    that [data] refers to, in place; no other value supports the assignment
    with a string index. *)
Definition py_setitem (data : place) (key : string) (v : value) : M unit :=
  fun w =>
    match contents w data with
    | Some d => (Ok tt, put w data (dict_set key v d))
    | None => (Raise TypeError, w)
    end.

(** [len(x)]. *)
Definition py_len (x : value) : M nat := fun w => (len_at w x, w).

(** [x is not None]. *)
Definition is_not_None (x : value) : bool :=
  match x with
  | VNone => false
  | _ => true
  end.

(** ** Rendering values as text *)

Section Rendering.

(** [repr] of a string (quoting and escaping) and [repr] of a dictionary
    object (which marks a dictionary met inside itself) belong to the Python
    runtime and are left abstract; they are only met when a string sits
    inside a list that is rendered, or when a dictionary is rendered. *)
Variable repr_str : string -> string.
Variable repr_dict : heap -> loc -> string.

(** [str(n)] for an integer: its decimal digits, with a sign when negative. *)
Definition str_of_int (n : Z) : string := NilZero.string_of_int (Z.to_int n).

(** [", ".join(parts)]. *)
Definition join_comma (parts : list string) : string := String.concat ", " parts.

(** [repr(x)]. *)
Fixpoint py_repr (h : heap) (x : value) : string :=
  match x with
  | VNone => "None"
  | VBool true => "True"
  | VBool false => "False"
  | VInt n => str_of_int n
  | VStr s => repr_str s
  | VList l => "[" ++ join_comma (map (py_repr h) l) ++ "]"
  | VDict l => repr_dict h l
  end.

(** [str(x)], which is what an f-string field with no format specification
    inserts: a string stands for itself, every other value for its [repr]. *)
Definition py_str (h : heap) (x : value) : string :=
  match x with
  | VStr s => s
  | _ => py_repr h x
  end.

End Rendering.

(** ** The class [Parameters] *)

Module Parameters.


(** The body of [for key in keys[:-1]] in [get].  [inl] is the early
    [return default]; [inr] is what [data] refers to when the loop ends. *)
Fixpoint get_loop (original_key : string) (default : value)
         (keys : list string) (data : place) : M (value + place) :=
  match keys with
  | [] => ret (inr data)
  | key :: keys' =>
      present <- py_in key data ;;
      if negb present then
        logger_warning
          ("[Parameters] Key not found: " ++ original_key ++ "; using default:")
          default ;;
        ret (inl default)
      else
        data' <- py_getitem data key ;;
        get_loop original_key default keys' (At data')
  end.

(** The last two statements of [get]:
    [if default is not None and key not in data: return default] and
    [return data[key]].  The conjunction is short-circuit: with a [None]
    default the membership test is not evaluated. *)
Definition get_final (data : place) (key : string) (default : value) : M value :=
  absent <- (if is_not_None default
             then present <- py_in key data ;; ret (negb present)
             else ret false) ;;
  if (absent : bool) then ret default else py_getitem data key.

(** [Parameters.get(self, key, default=None)]. *)
Definition get (key : string) (default : value) : M value :=
  let original_key := key in
  let data := Root in
  if is_substring "/" key then
    let keys := split_slash key in
    r <- get_loop original_key default (removelast keys) data ;;
    match r with
    | inl early => ret early
    | inr data => get_final data (last keys EmptyString) default
    end
  else get_final data key default.

(** The body of [for key in keys[:-1]: data = data[key]] in [set]: what
    [data] refers to when the loop ends. *)
Fixpoint set_loop (keys : list string) (data : place) : M place :=
  match keys with
  | [] => ret data
  | key :: keys' =>
      data' <- py_getitem data key ;;
      set_loop keys' (At data')
  end.

(** [Parameters.set(self, key, value)]. *)
Definition set (key : string) (v : value) : M unit :=
  let data := Root in
  if is_substring "/" key then
    let keys := split_slash key in
    data <- set_loop (removelast keys) data ;;
    py_setitem data (last keys EmptyString) v
  else py_setitem data key v.

(** [Parameters.__getitem__(self, key)]. *)
Definition __getitem__ (key : string) : M value := py_getitem Root key.

(** [Parameters.__setitem__(self, key, value)]. *)
Definition __setitem__ (key : string) (v : value) : M unit :=
  py_setitem Root key v.

(** The loop of [__str__] over [enumerate(self.data.items())], from index
    [i] with the text accumulated in [result]; [str_value] is [str] on the
    values. *)
Fixpoint str_loop (str_value : value -> string) (items : dict) (i : nat)
         (result : string) : string :=
  match items with
  | [] => result
  | (key, v) :: items' =>
      let result := if Nat.ltb 0 i then result ++ String "010" EmptyString
                    else result in
      let result := result ++ (key ++ ": " ++ str_value v) in
      str_loop str_value items' (S i) result
  end.

(** [Parameters.__str__(self)]. *)
Definition __str__ (repr_str : string -> string)
           (repr_dict : heap -> loc -> string) : M string :=
  w <- read_world ;;
  ret (str_loop (py_str repr_str repr_dict (objects w)) (self_data w) 0 "").

(** [Parameters.get_task_goals(parameters)]. *)
Definition get_task_goals : M (value * value) :=
  present <- py_in "object_to_find" Root ;;
  object_to_find <-
    (if (present : bool) then
       object_to_find <- __getitem__ "object_to_find" ;;
       n <- py_len object_to_find ;;
       if Nat.eqb n 0 then ret VNone else ret object_to_find
     else ret VNone) ;;
  present <- py_in "location_to_place" Root ;;
  location_to_place <-
    (if (present : bool) then
       location_to_place <- __getitem__ "location_to_place" ;;
       n <- py_len location_to_place ;;
       if Nat.eqb n 0 then ret VNone else ret location_to_place
     else ret VNone) ;;
  ret (object_to_find, location_to_place).

(** The property [Parameters.guarantee_instance_is_reachable]. *)
Definition guarantee_instance_is_reachable : M value :=
  present <- py_in "guarantee_instance_is_reachable" Root ;;
  if (present : bool) then py_getitem Root "guarantee_instance_is_reachable"
  else ret (VBool false).

End Parameters.

(** ** Notions the properties are stated with *)

(** What is reached from [data] by descending through [keys], each of which
    must be bound in a dictionary. *)
Fixpoint descend (w : world) (keys : list string) (data : place) : option place :=
  match keys with
  | [] => Some data
  | k :: keys' =>
      match contents w data with
      | Some d =>
          match dict_get k d with
          | Some child => descend w keys' (At child)
          | None => None
          end
      | None => None
      end
  end.

(** The items of the dictionary reached from [self.data] through [keys]. *)
Definition level (w : world) (keys : list string) : option dict :=
  match descend w keys Root with
  | Some p => contents w p
  | None => None
  end.

(** The address of the dictionary object a place refers to, if it refers to
    one in the heap. *)
Definition place_loc (data : place) : list loc :=
  match data with
  | At (VDict l) => [l]
  | _ => []
  end.

(** The dictionary objects of the heap in which a descent from [data] looks
    a segment of [keys] up. *)
Fixpoint passes (w : world) (keys : list string) (data : place) : list loc :=
  match keys with
  | [] => []
  | k :: keys' =>
      (place_loc data ++
       match contents w data with
       | Some d =>
           match dict_get k d with
           | Some child => passes w keys' (At child)
           | None => []
           end
       | None => []
       end)%list
  end.

Definition mem_loc (l : loc) (ls : list loc) : bool := existsb (Nat.eqb l) ls.

(** The descent from [self.data] through [keys] does not end in a dictionary
    it has already looked a segment up in: it does not come back on itself.
    This is so in every store that is a tree. *)
Definition ends_off_path (w : world) (keys : list string) : bool :=
  match descend w keys Root with
  | Some (At (VDict l)) => negb (mem_loc l (passes w keys Root))
  | _ => true
  end.

(** The dictionary object of the heap in which [set] assigns for a key, when
    the descent reaches one. *)
Definition target (w : world) (key : string) : list loc :=
  match descend w (removelast (split_slash key)) Root with
  | Some p => place_loc p
  | None => []
  end.

(** No dictionary object in which [set] on [key] assigns is one in which
    [get] on [key'] looks a segment up. *)
Definition off_the_path (w : world) (key key' : string) : bool :=
  forallb (fun l => negb (mem_loc l (passes w (split_slash key') Root)))
          (target w key).

(** How the loop of [get] over the intermediate segments ends. *)
Inductive walk : Type :=
| Reached : place -> walk
| Missing : walk
| Failed : exn -> walk.

Fixpoint walk_to (w : world) (keys : list string) (data : place) : walk :=
  match keys with
  | [] => Reached data
  | k :: keys' =>
      match in_at w k data with
      | Raise e => Failed e
      | Ok false => Missing
      | Ok true =>
          match item_at w data k with
          | Raise e => Failed e
          | Ok child => walk_to w keys' (At child)
          end
      end
  end.

(** The outcome of the last lookup of [get]. *)
Definition final_at (w : world) (data : place) (key : string) (default : value)
  : result value :=
  match (if is_not_None default
         then match in_at w key data with
              | Ok present => Ok (negb present)
              | Raise e => Raise e
              end
         else Ok false) with
  | Ok true => Ok default
  | Ok false => item_at w data key
  | Raise e => Raise e
  end.

(** The outcome of the descent of [set]. *)
Fixpoint descent_to (w : world) (keys : list string) (data : place) : result place :=
  match keys with
  | [] => Ok data
  | k :: keys' =>
      match item_at w data k with
      | Ok child => descent_to w keys' (At child)
      | Raise e => Raise e
      end
  end.

(** The sequences of the value model: strings and lists. *)
Definition is_sequence (x : value) : bool :=
  match x with
  | VStr _ | VList _ => true
  | _ => false
  end.

(** A task-goal key is either absent or bound to a sequence. *)
Definition absent_or_sequence (o : option value) : bool :=
  match o with
  | None => true
  | Some x => is_sequence x
  end.

(** A task-goal key is either absent or bound to a value that has a length:
    a string, a list or a dictionary. *)
Definition absent_or_sized (w : world) (o : option value) : bool :=
  match o with
  | None => true
  | Some x => match len_at w x with Ok _ => true | Raise _ => false end
  end.

(** The slot of the pair of task goals for a key bound as [o] says: the
    stored value when it has a length other than zero, [None] when the key is
    absent or the length is zero. *)
Definition goal_slot (w : world) (o : option value) : value :=
  match o with
  | None => VNone
  | Some x => match len_at w x with Ok O => VNone | _ => x end
  end.

(** One line of the textual rendering. *)
Definition render_line (str_value : value -> string) (kv : string * value) : string :=
  fst kv ++ ": " ++ str_value (snd kv).

Definition newline : string := String "010" EmptyString.

(** A method that leaves [self.data] and every dictionary object as it found
    them, whatever its outcome. *)
Definition preserves_data {A : Type} (m : M A) : Prop :=
  forall w, self_data (snd (m w)) = self_data w /\
            objects (snd (m w)) = objects w.

(** The warning [get] emits for the key it was called with. *)
Definition key_not_found_warning (original_key : string) (default : value) : log_entry :=
  LogWarning ("[Parameters] Key not found: " ++ original_key ++ "; using default:")
             default.

(** The state after that warning. *)
Definition warned (w : world) (original_key : string) (default : value) : world :=
  mkWorld (self_data w) (objects w)
          (logged w ++ [key_not_found_warning original_key default])%list.

(** Some segment of [key], intermediate or last, is not bound in the
    dictionary that the descent through the segments before it reaches. *)
Definition segment_absent (key : string) (w : world) : Prop :=
  exists (pre : list string) (seg : string) (post : list string) (d : dict),
    split_slash key = (pre ++ seg :: post)%list /\
    level w pre = Some d /\
    dict_get seg d = None.

(** The values that are neither containers nor subscriptable. *)
Definition is_scalar (x : value) : bool :=
  match x with
  | VNone | VBool _ | VInt _ => true
  | _ => false
  end.

Definition is_dict (x : value) : bool :=
  match x with
  | VDict _ => true
  | _ => false
  end.

(** The first segment of a key: the only one that addresses [self.data]
    itself. *)
Definition first_segment (key : string) : string :=
  hd EmptyString (split_slash key).

(** A task-goal key is bound to a value that has no length. *)
Definition bound_to_scalar (o : option value) : bool :=
  match o with
  | Some x => is_scalar x
  | None => false
  end.

(** Two runs agree on what the caller observes apart from the store: the
    outcome and the log. *)
Definition same_outcome {A : Type} (p q : result A * world) : Prop :=
  fst p = fst q /\ logged (snd p) = logged (snd q).

(** A store used in the examples: [a] is a mapping holding a mapping [b],
    beside a string and a number. *)
Definition sample : world :=
  mkWorld [("a", VDict 0); ("name", VStr "stretch"); ("x", VInt 1)]
          [[("b", VDict 1)]; [("c", VInt 3)]]
          [].

(** A store in which the mapping under [a] holds itself under [a]. *)
Definition self_containing : world :=
  mkWorld [("a", VDict 0)] [[("a", VDict 0)]] [].

(** A store with one mapping, empty, under [a]. *)
Definition one_mapping : world :=
  mkWorld [("a", VDict 0)] [[]] [].

(** ** Dictionaries *)

Lemma dict_mem_get (k : string) (d : dict) :
  dict_mem k d = match dict_get k d with Some _ => true | None => false end.
Proof.
  induction d as [|[k' v'] d IH]; simpl; [reflexivity|].
  destruct (String.eqb k k'); simpl; [reflexivity|exact IH].
Qed.

Lemma dict_get_set_same (k : string) (v : value) (d : dict) :
  dict_get k (dict_set k v d) = Some v.
Proof.
  induction d as [|[k' v'] d IH]; simpl.
  - now rewrite String.eqb_refl.
  - destruct (String.eqb k k') eqn:E; simpl; rewrite E; [reflexivity|exact IH].
Qed.

Lemma dict_get_set_other (k k' : string) (v : value) (d : dict) :
  k <> k' -> dict_get k (dict_set k' v d) = dict_get k d.
Proof.
  intros Hne. induction d as [|[k0 v0] d IH]; simpl.
  - destruct (String.eqb_spec k k'); [contradiction|reflexivity].
  - destruct (String.eqb_spec k' k0) as [->|Hk0]; simpl.
    + destruct (String.eqb_spec k k0); [contradiction|reflexivity].
    + destruct (String.eqb k k0); [reflexivity|exact IH].
Qed.

(** Assigning to a key that is not bound appends it: the order of the items
    is the order of insertion. *)
Lemma dict_set_fresh (k : string) (v : value) (d : dict) :
  dict_get k d = None -> dict_set k v d = (d ++ [(k, v)])%list.
Proof.
  induction d as [|[k' v'] d IH]; simpl; [reflexivity|].
  destruct (String.eqb k k'); [discriminate|].
  intros H. now rewrite IH.
Qed.

(** Assigning to a bound key changes neither the keys nor their order. *)
Lemma dict_set_keys_bound (k : string) (v : value) (d : dict) :
  dict_get k d <> None -> map fst (dict_set k v d) = map fst d.
Proof.
  induction d as [|[k' v'] d IH]; simpl; [congruence|].
  destruct (String.eqb k k'); simpl; [reflexivity|].
  intros H. now rewrite IH.
Qed.

(** ** Splitting a key *)

Lemma split_slash_nonempty (s : string) : split_slash s <> [].
Proof.
  induction s as [|c s IH]; simpl; [discriminate|].
  destruct (Ascii.eqb c "/"); [discriminate|].
  destruct (split_slash s); [contradiction|discriminate].
Qed.

(** Joining the segments with slashes gives the key back. *)
Lemma concat_split_slash (s : string) : String.concat "/" (split_slash s) = s.
Proof.
  induction s as [|c s IH]; simpl; [reflexivity|].
  destruct (Ascii.eqb_spec c "/") as [->|Hc].
  - pose proof (split_slash_nonempty s) as Hne.
    destruct (split_slash s) as [|seg segs]; [contradiction|].
    simpl in *. now rewrite IH.
  - pose proof (split_slash_nonempty s) as Hne.
    destruct (split_slash s) as [|seg segs]; [contradiction|].
    destruct segs; simpl in *; now rewrite <- IH.
Qed.

(** No segment contains a slash. *)
Lemma split_slash_segments (s : string) :
  Forall (fun seg => is_substring "/" seg = false) (split_slash s).
Proof.
  induction s as [|c s IH]; simpl.
  - constructor; [reflexivity|constructor].
  - destruct (Ascii.eqb_spec c "/") as [->|Hc].
    + constructor; [reflexivity|exact IH].
    + pose proof (split_slash_nonempty s) as Hne.
      destruct (split_slash s) as [|seg segs]; [contradiction|].
      inversion IH as [|? ? Hseg Hsegs]; subst.
      constructor; [|exact Hsegs].
      cbn [is_substring starts_with].
      destruct (Ascii.eqb_spec "/"%char c) as [E|_]; [congruence|].
      exact Hseg.
Qed.

(** A key without a slash is its own single segment. *)
Lemma split_slash_flat (s : string) :
  is_substring "/" s = false -> split_slash s = [s].
Proof.
  induction s as [|c s IH]; [reflexivity|].
  cbn [is_substring starts_with split_slash].
  destruct (Ascii.eqb_spec c "/") as [->|Hc].
  - rewrite Ascii.eqb_refl. destruct s; discriminate.
  - destruct (Ascii.eqb_spec "/"%char c) as [E|_]; [congruence|].
    simpl. intros H. now rewrite IH.
Qed.

(** ** Assignments in a dictionary *)

Lemma dict_set_set (k : string) (v1 v2 : value) (d : dict) :
  dict_set k v2 (dict_set k v1 d) = dict_set k v2 d.
Proof.
  induction d as [|[k' v'] d IH]; simpl.
  - now rewrite String.eqb_refl.
  - destruct (String.eqb k k') eqn:E; simpl; rewrite E; [reflexivity|].
    now rewrite IH.
Qed.

Lemma dict_set_same_value (k : string) (v : value) (d : dict) :
  dict_get k d = Some v -> dict_set k v d = d.
Proof.
  induction d as [|[k' v'] d IH]; simpl; [discriminate|].
  destruct (String.eqb k k').
  - intros H. now inversion H.
  - intros H. now rewrite IH.
Qed.

Lemma dict_set_keys (k : string) (v : value) (d : dict) :
  map fst (dict_set k v d) =
  if dict_mem k d then map fst d else (map fst d ++ [k])%list.
Proof.
  rewrite dict_mem_get. destruct (dict_get k d) eqn:E.
  - apply dict_set_keys_bound. congruence.
  - rewrite (dict_set_fresh k v d E), map_app. reflexivity.
Qed.

(** ** Segments of a key with a slash *)

Lemma split_slash_two (s : string) :
  is_substring "/" s = true ->
  exists a b l, split_slash s = a :: b :: l.
Proof.
  induction s as [|c s IH]; [discriminate|].
  cbn [is_substring starts_with split_slash].
  destruct (Ascii.eqb_spec c "/") as [->|Hc].
  - intros _. pose proof (split_slash_nonempty s) as Hne.
    destruct (split_slash s) as [|b l]; [contradiction|].
    now exists EmptyString, b, l.
  - destruct (Ascii.eqb_spec "/"%char c) as [E|_]; [congruence|].
    simpl. intros H. destruct (IH H) as (a & b & l & ->).
    now exists (String c a), b, l.
Qed.


(** The segments before the last and the last one, for a list of segments
    cut at one of them. *)
Lemma removelast_cut {A : Type} (pre : list A) (x y : A) (post : list A) :
  removelast (pre ++ x :: y :: post) = (pre ++ x :: removelast (y :: post))%list.
Proof.
  rewrite removelast_app by discriminate. reflexivity.
Qed.


(** ** Strings: appending and joining *)

Lemma append_assoc (a b c : string) : (a ++ b) ++ c = a ++ (b ++ c).
Proof. induction a as [|x a IH]; simpl; [reflexivity|now rewrite IH]. Qed.

Lemma append_empty_r (a : string) : a ++ "" = a.
Proof. induction a as [|x a IH]; simpl; [reflexivity|now rewrite IH]. Qed.

Lemma concat_empty_cons (x : string) (xs : list string) :
  String.concat "" (x :: xs) = x ++ String.concat "" xs.
Proof.
  destruct xs as [|y xs]; simpl; [now rewrite append_empty_r|reflexivity].
Qed.

(** Past the first item, every item adds a newline and its line. *)
Lemma str_loop_succ (str_value : value -> string) :
  forall (items : dict) (i : nat) (acc : string),
    Parameters.str_loop str_value items (S i) acc =
    acc ++ String.concat "" (map (fun kv => newline ++ render_line str_value kv) items).
Proof.
  induction items as [|[k v] items IH]; intros i acc.
  - simpl. now rewrite append_empty_r.
  - cbn [Parameters.str_loop Nat.ltb Nat.leb map]. rewrite IH.
    rewrite concat_empty_cons. unfold render_line. cbn [fst snd].
    rewrite !append_assoc. reflexivity.
Qed.

Lemma concat_newline (x : string) (xs : list string) :
  String.concat newline (x :: xs) =
  x ++ String.concat "" (map (fun y => newline ++ y) xs).
Proof.
  revert x. induction xs as [|y xs IH]; intros x.
  - simpl. now rewrite append_empty_r.
  - change (String.concat newline (x :: y :: xs))
      with (x ++ newline ++ String.concat newline (y :: xs)).
    rewrite IH. cbn [map]. rewrite concat_empty_cons, !append_assoc.
    reflexivity.
Qed.


(** ** The heap *)

Lemma heap_get_set_same (l : loc) (d d' : dict) (h : heap) :
  heap_get l h = Some d -> heap_get l (heap_set l d' h) = Some d'.
Proof.
  unfold heap_get. revert l. induction h as [|d0 h IH]; intros [|l]; simpl;
    try discriminate; auto.
Qed.

Lemma heap_get_set_other (l l' : loc) (d : dict) (h : heap) :
  l <> l' -> heap_get l' (heap_set l d h) = heap_get l' h.
Proof.
  unfold heap_get. revert l l'.
  induction h as [|d0 h IH]; intros [|l] [|l'] Hne; simpl; auto;
    try contradiction.
Qed.

Lemma heap_set_same (l : loc) (d : dict) (h : heap) :
  heap_get l h = Some d -> heap_set l d h = h.
Proof.
  unfold heap_get. revert l. induction h as [|d0 h IH]; intros [|l]; simpl;
    try discriminate.
  - intros H. now inversion H.
  - intros H. now rewrite IH.
Qed.

Lemma heap_set_set (l : loc) (d1 d2 : dict) (h : heap) :
  heap_set l d2 (heap_set l d1 h) = heap_set l d2 h.
Proof.
  revert l. induction h as [|d0 h IH]; intros [|l]; simpl; auto.
  now rewrite IH.
Qed.

(** ** Places and the assignment in place *)

Lemma contents_put_same (w : world) (p : place) (d d' : dict) :
  contents w p = Some d -> contents (put w p d') p = Some d'.
Proof.
  destruct p as [|[| | | | |l]]; simpl; try discriminate; auto.
  apply heap_get_set_same.
Qed.

(** Assigning the items a dictionary already has changes nothing. *)
Lemma put_same (w : world) (p : place) (d : dict) :
  contents w p = Some d -> put w p d = w.
Proof.
  destruct w as [root h logs].
  destruct p as [|[| | | | |l]]; simpl; try discriminate.
  - intros H. now inversion H.
  - intros H. now rewrite (heap_set_same _ _ _ H).
Qed.

Lemma put_put (w : world) (p : place) (d1 d2 : dict) :
  put (put w p d1) p d2 = put w p d2.
Proof.
  destruct p as [|[| | | | |l]]; simpl; try reflexivity.
  now rewrite heap_set_set.
Qed.

(** An assignment in a dictionary of the heap is not seen at a place that
    refers elsewhere. *)
Lemma contents_put_heap (w : world) (l : loc) (d' : dict) (q : place) :
  mem_loc l (place_loc q) = false ->
  contents (put w (At (VDict l)) d') q = contents w q.
Proof.
  destruct q as [|[| | | | |l']]; simpl; try reflexivity.
  rewrite orb_false_r. intros H. apply heap_get_set_other.
  intros ->. now rewrite Nat.eqb_refl in H.
Qed.

Lemma in_at_dict (w : world) (key : string) (p : place) (d : dict) :
  contents w p = Some d -> in_at w key p = Ok (dict_mem key d).
Proof.
  destruct p as [|[| | | | |l]]; simpl; try discriminate;
    intros H; [now inversion H|now rewrite H].
Qed.

Lemma item_at_dict (w : world) (key : string) (p : place) (d : dict) :
  contents w p = Some d ->
  item_at w p key = match dict_get key d with
                    | Some v => Ok v
                    | None => Raise (KeyError key)
                    end.
Proof. unfold item_at. now intros ->. Qed.

(** Indexing succeeds only in a dictionary that binds the key. *)
Lemma item_at_ok (w : world) (key : string) (p : place) (v : value) :
  item_at w p key = Ok v ->
  exists d, contents w p = Some d /\ dict_get key d = Some v.
Proof.
  unfold item_at. destruct (contents w p) as [d|]; [|discriminate].
  destruct (dict_get key d) as [x|] eqn:E; [|discriminate].
  intros H. inversion H; subst. now exists d.
Qed.

(** The operators look at a place only through the items found there. *)
Lemma in_at_contents (w1 w2 : world) (key : string) (p : place) :
  contents w1 p = contents w2 p -> in_at w1 key p = in_at w2 key p.
Proof.
  destruct p as [|[| | | | |l]]; simpl; try reflexivity.
  - intros H. now inversion H.
  - now intros ->.
Qed.

Lemma item_at_contents (w1 w2 : world) (key : string) (p : place) :
  contents w1 p = contents w2 p -> item_at w1 p key = item_at w2 p key.
Proof. unfold item_at. now intros ->. Qed.

Lemma final_at_contents (w1 w2 : world) (key : string) (p : place)
      (default : value) :
  contents w1 p = contents w2 p ->
  final_at w1 p key default = final_at w2 p key default.
Proof.
  intros H. unfold final_at.
  now rewrite (in_at_contents w1 w2 key p H), (item_at_contents w1 w2 key p H).
Qed.

(** ** The monad: running a method *)

Lemma bind_ok {A B : Type} (m : M A) (f : A -> M B) (w w' : world) (a : A) :
  m w = (Ok a, w') -> bind m f w = f a w'.
Proof. intros H. unfold bind. now rewrite H. Qed.

Lemma bind_raise {A B : Type} (m : M A) (f : A -> M B) (w w' : world) (e : exn) :
  m w = (Raise e, w') -> bind m f w = (Raise e, w').
Proof. intros H. unfold bind. now rewrite H. Qed.

Lemma bind_ok_eq {A B : Type} (m : M A) (f : A -> M B) (w w' : world) (a : A)
      (r : result B * world) :
  m w = (Ok a, w') -> f a w' = r -> bind m f w = r.
Proof. intros H <-. now apply bind_ok. Qed.

Ltac run :=
  unfold bind, read_world, py_in, py_getitem, py_len, ret, raise,
    logger_warning; simpl.

(** ** The descents of [get] and [set], as outcomes *)

(** The loop of [get] ends in one of three ways: at a place, without a
    trace; with an exception, without a trace; or with the default and one
    warning. *)
Lemma get_loop_walk (original_key : string) (default : value) (w : world) :
  forall (keys : list string) (data : place),
    Parameters.get_loop original_key default keys data w =
    match walk_to w keys data with
    | Reached p => (Ok (inr p), w)
    | Missing => (Ok (inl default), warned w original_key default)
    | Failed e => (Raise e, w)
    end.
Proof.
  induction keys as [|k keys IH]; intros data; [reflexivity|].
  cbn [Parameters.get_loop walk_to]. unfold bind at 1, py_in.
  destruct (in_at w k data) as [[|]|e]; cbn [negb]; try reflexivity.
  unfold bind at 1, py_getitem.
  destruct (item_at w data k) as [child|e]; [apply IH|reflexivity].
Qed.

(** The last lookup touches neither the store nor the log. *)
Lemma get_final_eq (data : place) (key : string) (default : value) (w : world) :
  Parameters.get_final data key default w = (final_at w data key default, w).
Proof.
  unfold Parameters.get_final, final_at. run.
  destruct (is_not_None default); [|reflexivity].
  destruct (in_at w key data) as [[|]|e]; reflexivity.
Qed.

(** A key without a slash goes straight to the final lookup in [self.data]. *)
Lemma get_flat (w : world) (k : string) (d : value) :
  is_substring "/" k = false ->
  Parameters.get k d w = (final_at w Root k d, w).
Proof.
  intros Hflat. unfold Parameters.get. rewrite Hflat. apply get_final_eq.
Qed.

(** [get] is its loop over the segments but the last, followed by its last
    lookup, whether the key has a slash or not. *)
Lemma get_walk (key : string) (default : value) (w : world) :
  Parameters.get key default w =
  match walk_to w (removelast (split_slash key)) Root with
  | Reached p => (final_at w p (last (split_slash key) EmptyString) default, w)
  | Missing => (Ok default, warned w key default)
  | Failed e => (Raise e, w)
  end.
Proof.
  destruct (is_substring "/" key) eqn:Hslash.
  - unfold Parameters.get. rewrite Hslash. unfold bind.
    rewrite get_loop_walk.
    destruct (walk_to w (removelast (split_slash key)) Root);
      try reflexivity.
    apply get_final_eq.
  - rewrite get_flat by exact Hslash.
    now rewrite split_slash_flat by exact Hslash.
Qed.

(** The loop of [set] changes nothing. *)
Lemma set_loop_eq (w : world) :
  forall (keys : list string) (data : place),
    Parameters.set_loop keys data w = (descent_to w keys data, w).
Proof.
  induction keys as [|k keys IH]; intros data; [reflexivity|].
  cbn [Parameters.set_loop descent_to]. unfold bind, py_getitem.
  destruct (item_at w data k) as [child|e]; [apply IH|reflexivity].
Qed.

(** [set] is its descent through the segments but the last, followed by the
    assignment, whether the key has a slash or not. *)
Lemma set_eq (key : string) (v : value) (w : world) :
  Parameters.set key v w =
  match descent_to w (removelast (split_slash key)) Root with
  | Ok p => py_setitem p (last (split_slash key) EmptyString) v w
  | Raise e => (Raise e, w)
  end.
Proof.
  unfold Parameters.set. destruct (is_substring "/" key) eqn:Hslash.
  - unfold bind. rewrite set_loop_eq.
    destruct (descent_to w (removelast (split_slash key)) Root); reflexivity.
  - now rewrite split_slash_flat by exact Hslash.
Qed.

(** Both descents follow bound keys from dictionary to dictionary. *)
Lemma walk_descend (w : world) :
  forall (keys : list string) (data p : place),
    descend w keys data = Some p -> walk_to w keys data = Reached p.
Proof.
  induction keys as [|k keys IH]; intros data p H; simpl in *.
  - now inversion H.
  - destruct (contents w data) as [d|] eqn:Ed; [|discriminate].
    destruct (dict_get k d) as [child|] eqn:E; [|discriminate].
    rewrite (in_at_dict w k data d Ed), (item_at_dict w k data d Ed).
    rewrite dict_mem_get, E. now apply IH.
Qed.

Lemma walk_reached (w : world) :
  forall (keys : list string) (data p : place),
    walk_to w keys data = Reached p -> descend w keys data = Some p.
Proof.
  induction keys as [|k keys IH]; intros data p H; simpl in *.
  - now inversion H.
  - destruct (in_at w k data) as [[|]|e]; try discriminate.
    destruct (item_at w data k) as [child|e] eqn:E; [|discriminate].
    destruct (item_at_ok _ _ _ _ E) as (d & -> & ->). now apply IH.
Qed.

Lemma descent_descend (w : world) :
  forall (keys : list string) (data p : place),
    descend w keys data = Some p <-> descent_to w keys data = Ok p.
Proof.
  induction keys as [|k keys IH]; intros data p; simpl.
  - split; intros H; now inversion H.
  - unfold item_at. destruct (contents w data) as [d|]; [|split; discriminate].
    destruct (dict_get k d) as [child|]; [apply IH|split; discriminate].
Qed.

Lemma walk_app (w : world) :
  forall (pre rest : list string) (data p : place),
    descend w pre data = Some p ->
    walk_to w (pre ++ rest) data = walk_to w rest p.
Proof.
  induction pre as [|k pre IH]; intros rest data p H; simpl in *.
  - now inversion H.
  - destruct (contents w data) as [d|] eqn:Ed; [|discriminate].
    destruct (dict_get k d) as [child|] eqn:E; [|discriminate].
    rewrite (in_at_dict w k data d Ed), (item_at_dict w k data d Ed).
    rewrite dict_mem_get, E. now apply IH.
Qed.

Lemma descent_app (w : world) :
  forall (pre rest : list string) (data p : place),
    descend w pre data = Some p ->
    descent_to w (pre ++ rest) data = descent_to w rest p.
Proof.
  induction pre as [|k pre IH]; intros rest data p H; simpl in *.
  - now inversion H.
  - destruct (contents w data) as [d|] eqn:Ed; [|discriminate].
    destruct (dict_get k d) as [child|] eqn:E; [|discriminate].
    rewrite (item_at_dict w k data d Ed), E. now apply IH.
Qed.

(** The last lookup in a dictionary. *)
Lemma final_at_bound (w : world) (p : place) (key : string) (default v : value)
      (d : dict) :
  contents w p = Some d -> dict_get key d = Some v ->
  final_at w p key default = Ok v.
Proof.
  intros Hd Hk. unfold final_at.
  rewrite (in_at_dict _ _ _ _ Hd), (item_at_dict _ _ _ _ Hd), dict_mem_get, Hk.
  now destruct (is_not_None default).
Qed.

Lemma final_at_absent (w : world) (p : place) (key : string) (default : value)
      (d : dict) :
  contents w p = Some d -> dict_get key d = None ->
  final_at w p key default =
  if is_not_None default then Ok default else Raise (KeyError key).
Proof.
  intros Hd Hk. unfold final_at.
  rewrite (in_at_dict _ _ _ _ Hd), (item_at_dict _ _ _ _ Hd), dict_mem_get, Hk.
  now destruct (is_not_None default).
Qed.

(** What [get] does when the segments but the last lead somewhere. *)
Lemma get_reaches (w : world) (key : string) (default : value) (p : place) :
  descend w (removelast (split_slash key)) Root = Some p ->
  Parameters.get key default w =
  (final_at w p (last (split_slash key) EmptyString) default, w).
Proof.
  intros H. now rewrite get_walk, (walk_descend _ _ _ _ H).
Qed.

Lemma level_contents (w : world) (keys : list string) (d : dict) :
  level w keys = Some d ->
  exists p, descend w keys Root = Some p /\ contents w p = Some d.
Proof.
  unfold level. destruct (descend w keys Root) as [p|]; [|discriminate].
  intros H. now exists p.
Qed.

(** ** The claims about [get] *)

(** C1: when [self.data] binds a key [k] without a slash to [v], [get(k, d)]
    returns [v] for every default [d], [None] or not, and changes nothing. *)
Theorem get_flat_present (w : world) (k : string) (v d : value) :
  is_substring "/" k = false ->
  dict_get k (self_data w) = Some v ->
  Parameters.get k d w = (Ok v, w).
Proof.
  intros Hflat Hk. rewrite get_flat by exact Hflat.
  now rewrite (final_at_bound w Root k d v (self_data w) eq_refl Hk).
Qed.

Lemma get_flat_present_witness :
  Parameters.get "x" (VInt 7) (mkWorld [("x", VInt 1); ("y", VInt 2)] [] []) =
  (Ok (VInt 1), mkWorld [("x", VInt 1); ("y", VInt 2)] [] []).
Proof.
  apply (get_flat_present (mkWorld [("x", VInt 1); ("y", VInt 2)] [] []) "x"
                          (VInt 1) (VInt 7)); reflexivity.
Defined.

(** C2: when [self.data] does not bind a key [k] without a slash,
    [get(k, d)] returns [d] for every [d] other than [None], and [get(k)]
    with the default [None] raises [KeyError] for [k], which reaches the
    caller as the outcome of the call. *)
Theorem get_flat_absent (w : world) (k : string) :
  is_substring "/" k = false ->
  dict_get k (self_data w) = None ->
  (forall d, d <> VNone -> Parameters.get k d w = (Ok d, w)) /\
  Parameters.get k VNone w = (Raise (KeyError k), w).
Proof.
  intros Hflat Hk. split.
  - intros d Hd. rewrite get_flat by exact Hflat.
    rewrite (final_at_absent w Root k d (self_data w) eq_refl Hk).
    destruct d; try reflexivity. contradiction.
  - rewrite get_flat by exact Hflat.
    now rewrite (final_at_absent w Root k VNone (self_data w) eq_refl Hk).
Qed.

Lemma get_flat_absent_witness :
  (forall d, d <> VNone ->
             Parameters.get "z" d (mkWorld [("x", VInt 1)] [] []) =
             (Ok d, mkWorld [("x", VInt 1)] [] [])) /\
  Parameters.get "z" VNone (mkWorld [("x", VInt 1)] [] []) =
  (Raise (KeyError "z"), mkWorld [("x", VInt 1)] [] []).
Proof.
  apply (get_flat_absent (mkWorld [("x", VInt 1)] [] []) "z"); reflexivity.
Defined.

(** At a dictionary that does not bind the next segment the loop of [get]
    stops for a missing key. *)
Lemma walk_absent (w : world) (p : place) (d : dict) (seg : string)
      (post : list string) :
  contents w p = Some d -> dict_get seg d = None ->
  walk_to w (seg :: post) p = Missing.
Proof.
  intros Hd Hseg. simpl.
  now rewrite (in_at_dict _ _ _ _ Hd), dict_mem_get, Hseg.
Qed.

(** C3: for a key with a slash, when the descent through the intermediate
    segments reaches a dictionary that does not bind the next intermediate
    segment, [get] returns the default it was given, whatever it is ([None]
    included), leaves [self.data] and every dictionary alone and adds
    exactly one record to the log: a warning whose text names the key [get]
    was called with. *)
Theorem get_missing_intermediate
        (w : world) (key : string) (default : value)
        (pre post : list string) (seg : string) (d : dict) :
  is_substring "/" key = true ->
  removelast (split_slash key) = (pre ++ seg :: post)%list ->
  level w pre = Some d ->
  dict_get seg d = None ->
  Parameters.get key default w =
  (Ok default,
   mkWorld (self_data w) (objects w)
           (logged w ++ [LogWarning ("[Parameters] Key not found: " ++ key
                                       ++ "; using default:") default])%list).
Proof.
  intros Hslash Hkeys Hpre Hseg.
  destruct (level_contents _ _ _ Hpre) as (p & Hp & Hd).
  rewrite get_walk, Hkeys, (walk_app w pre _ _ _ Hp).
  now rewrite (walk_absent w p d seg post Hd Hseg).
Qed.

Lemma get_missing_intermediate_witness :
  Parameters.get "a/x/c" VNone
    (mkWorld [("a", VDict 0)] [[("b", VInt 1)]] []) =
  (Ok VNone,
   mkWorld [("a", VDict 0)] [[("b", VInt 1)]]
           [LogWarning "[Parameters] Key not found: a/x/c; using default:" VNone]).
Proof.
  apply (get_missing_intermediate
           (mkWorld [("a", VDict 0)] [[("b", VInt 1)]] []) "a/x/c" VNone
           ["a"] [] "x" [("b", VInt 1)]); reflexivity.
Defined.

Lemma get_preserves_data (key : string) (default : value) :
  preserves_data (Parameters.get key default).
Proof.
  intros w. rewrite get_walk.
  destruct (walk_to w (removelast (split_slash key)) Root); now split.
Qed.

(** C10: [get] is read-only.  For every store, key and default, [self.data]
    and every nested dictionary after the call are what they were before the
    call, whether the call returns a stored value, returns the default or
    raises. *)
Theorem get_read_only (key : string) (default : value) (w : world) :
  self_data (snd (Parameters.get key default w)) = self_data w /\
  objects (snd (Parameters.get key default w)) = objects w.
Proof. apply get_preserves_data. Qed.

(** ** [get] along a path *)

(** X1: when the segments of a key but the last lead to a dictionary that
    binds the last one to [v], [get] returns [v] whatever the default, changes
    nothing and logs nothing; this is how ["a/b/c"] reads a value nested two
    levels down. *)
Theorem get_resolved_present (w : world) (key : string) (default v : value)
        (d : dict) :
  level w (removelast (split_slash key)) = Some d ->
  dict_get (last (split_slash key) EmptyString) d = Some v ->
  Parameters.get key default w = (Ok v, w).
Proof.
  intros Hlvl Hlast. destruct (level_contents _ _ _ Hlvl) as (p & Hp & Hd).
  rewrite (get_reaches w key default p Hp).
  now rewrite (final_at_bound _ _ _ default _ _ Hd Hlast).
Qed.

Lemma get_resolved_present_witness :
  Parameters.get "a/b/c" (VInt 0) sample = (Ok (VInt 3), sample).
Proof.
  apply (get_resolved_present sample "a/b/c" (VInt 0) (VInt 3) [("c", VInt 3)]);
    reflexivity.
Defined.

(** X2: when the segments but the last lead to a dictionary that does not
    bind the last one, a default other than [None] is returned silently, and
    with the default [None] the call raises [KeyError] for the last segment
    alone, not for the whole key. *)
Theorem get_resolved_absent (w : world) (key : string) (d : dict) :
  level w (removelast (split_slash key)) = Some d ->
  dict_get (last (split_slash key) EmptyString) d = None ->
  (forall default, default <> VNone ->
                   Parameters.get key default w = (Ok default, w)) /\
  Parameters.get key VNone w =
  (Raise (KeyError (last (split_slash key) EmptyString)), w).
Proof.
  intros Hlvl Hlast. destruct (level_contents _ _ _ Hlvl) as (p & Hp & Hd).
  split.
  - intros default Hdef. rewrite (get_reaches w key default p Hp).
    rewrite (final_at_absent _ _ _ default _ Hd Hlast).
    destruct default; try reflexivity. contradiction.
  - rewrite (get_reaches w key VNone p Hp).
    now rewrite (final_at_absent _ _ _ VNone _ Hd Hlast).
Qed.

Lemma get_resolved_absent_witness :
  (forall default, default <> VNone ->
                   Parameters.get "a/b/z" default sample = (Ok default, sample)) /\
  Parameters.get "a/b/z" VNone sample = (Raise (KeyError "z"), sample).
Proof.
  apply (get_resolved_absent sample "a/b/z" [("c", VInt 3)]); reflexivity.
Defined.

(** The last lookup at a place that is no container fails whatever the
    default. *)
Lemma final_at_scalar (w : world) (lvl : value) (key : string) (default : value) :
  is_scalar lvl = true -> final_at w (At lvl) key default = Raise TypeError.
Proof.
  intros H. destruct lvl; try discriminate; destruct default; reflexivity.
Qed.

Lemma walk_scalar (w : world) (lvl : value) (seg : string) (post : list string) :
  is_scalar lvl = true -> walk_to w (seg :: post) (At lvl) = Failed TypeError.
Proof.
  intros H. destruct lvl; try discriminate; reflexivity.
Qed.

(** X3: [get] does not fall back on the default when the path runs into a
    scalar.  If some segment of the key, intermediate or last, is to be
    looked up in a level that is [None], a boolean or a number, the call
    raises [TypeError], for every default, and nothing is logged. *)
Theorem get_scalar_level (w : world) (key : string) (default : value)
        (pre post : list string) (seg : string) (lvl : value) :
  split_slash key = (pre ++ seg :: post)%list ->
  descend w pre Root = Some (At lvl) ->
  is_scalar lvl = true ->
  Parameters.get key default w = (Raise TypeError, w).
Proof.
  intros Hkeys Hpre Hlvl. rewrite get_walk, Hkeys.
  destruct post as [|seg' post].
  - rewrite removelast_last, last_last, (walk_descend _ _ _ _ Hpre).
    now rewrite final_at_scalar.
  - rewrite removelast_cut, (walk_app w pre _ _ _ Hpre).
    now rewrite walk_scalar.
Qed.

Lemma get_scalar_level_witness :
  Parameters.get "x/y" (VInt 0) sample = (Raise TypeError, sample).
Proof.
  apply (get_scalar_level sample "x/y" (VInt 0) ["x"] [] "y" (VInt 1));
    reflexivity.
Defined.

(** X4: at a level that is a string, [key not in data] is a substring test.
    An intermediate segment that does not occur in the string is treated as
    a missing key (one warning, the default is returned); one that occurs in
    it passes the test and the indexing that follows raises [TypeError]. *)
Theorem get_string_level (w : world) (key : string) (default : value)
        (pre post : list string) (seg s : string) :
  removelast (split_slash key) = (pre ++ seg :: post)%list ->
  descend w pre Root = Some (At (VStr s)) ->
  Parameters.get key default w =
  if is_substring seg s then (Raise TypeError, w)
  else (Ok default,
        mkWorld (self_data w) (objects w)
                (logged w ++ [key_not_found_warning key default])%list).
Proof.
  intros Hkeys Hpre. rewrite get_walk, Hkeys, (walk_app w pre _ _ _ Hpre).
  simpl. destruct (is_substring seg s); reflexivity.
Qed.

Lemma get_string_level_witness :
  Parameters.get "name/tre/z" (VInt 0) sample = (Raise TypeError, sample) /\
  Parameters.get "name/q/z" (VInt 0) sample =
  (Ok (VInt 0),
   mkWorld (self_data sample) (objects sample)
           [LogWarning "[Parameters] Key not found: name/q/z; using default:"
                       (VInt 0)]).
Proof.
  split.
  - apply (get_string_level sample "name/tre/z" (VInt 0) ["name"] [] "tre"
                            "stretch"); reflexivity.
  - apply (get_string_level sample "name/q/z" (VInt 0) ["name"] [] "q"
                            "stretch"); reflexivity.
Defined.

(** ** What [get] logs and raises *)

(** X5: a call of [get] adds at most one record to the log, and only when it
    returns the default: either the whole state is as before the call, or the
    call returned the default and the log grew by the one warning for the key
    it was called with. *)
Theorem get_logs_at_most_once (key : string) (default : value) (w : world) :
  snd (Parameters.get key default w) = w \/
  Parameters.get key default w =
  (Ok default,
   mkWorld (self_data w) (objects w)
           (logged w ++ [LogWarning ("[Parameters] Key not found: " ++ key
                                       ++ "; using default:") default])%list).
Proof.
  rewrite get_walk.
  destruct (walk_to w (removelast (split_slash key)) Root); auto.
Qed.

(** The membership test raises nothing but [TypeError]. *)
Lemma in_at_raise (w : world) (key : string) (p : place) (e : exn) :
  in_at w key p = Raise e -> e = TypeError.
Proof.
  destruct p as [|[| | | | |l]]; simpl; try discriminate;
    try (intros H; now inversion H).
  destruct (heap_get l (objects w)); [discriminate|].
  intros H; now inversion H.
Qed.

(** The loop of [get] never raises [KeyError]: a segment is only indexed
    after the membership test has found it. *)
Lemma walk_failed (w : world) :
  forall (keys : list string) (data : place) (e : exn),
    walk_to w keys data = Failed e -> e = TypeError.
Proof.
  induction keys as [|k keys IH]; intros data e; simpl; [discriminate|].
  destruct (in_at w k data) as [[|]|e'] eqn:Ein.
  - unfold item_at. destruct (contents w data) as [d|] eqn:Ed.
    + rewrite (in_at_dict _ _ _ _ Ed), dict_mem_get in Ein.
      destruct (dict_get k d); [apply IH|discriminate].
    + intros H. now inversion H.
  - discriminate.
  - intros H. inversion H; subst. exact (in_at_raise _ _ _ _ Ein).
Qed.

(** The last lookup raises [KeyError] only for its own key and only under
    the default [None]. *)
Lemma final_at_key_error (w : world) (p : place) (key : string)
      (default : value) (k : string) :
  final_at w p key default = Raise (KeyError k) ->
  k = key /\ default = VNone.
Proof.
  unfold final_at. destruct (is_not_None default) eqn:Hd.
  - destruct (in_at w key p) as [[|]|e] eqn:Ein.
    + simpl. unfold item_at. destruct (contents w p) as [d|] eqn:Ed;
        [|discriminate].
      rewrite (in_at_dict _ _ _ _ Ed), dict_mem_get in Ein.
      destruct (dict_get key d); discriminate.
    + discriminate.
    + intros H. inversion H; subst.
      now pose proof (in_at_raise _ _ _ _ Ein).
  - unfold item_at. destruct (contents w p) as [d|]; [|discriminate].
    destruct (dict_get key d); [discriminate|].
    intros H. inversion H. split; [reflexivity|].
    now destruct default.
Qed.

(** X6: [get] raises [KeyError] only for the last segment of the key and only
    when the default is [None]; with any other default it never raises
    [KeyError].  The state is then as before the call. *)
Theorem get_key_error (key : string) (default : value) (w : world) (k : string) :
  fst (Parameters.get key default w) = Raise (KeyError k) ->
  k = last (split_slash key) EmptyString /\
  default = VNone /\
  snd (Parameters.get key default w) = w.
Proof.
  rewrite get_walk.
  destruct (walk_to w (removelast (split_slash key)) Root) as [p| |e] eqn:E;
    cbn [fst snd]; intros Hk.
  - destruct (final_at_key_error _ _ _ _ _ Hk) as [-> ->]. auto.
  - discriminate.
  - inversion Hk; subst. now pose proof (walk_failed _ _ _ _ E).
Qed.

Lemma get_key_error_witness :
  "z" = last (split_slash "a/b/z") EmptyString /\
  VNone = VNone /\
  snd (Parameters.get "a/b/z" VNone sample) = sample.
Proof.
  apply (get_key_error "a/b/z" VNone sample "z"); reflexivity.
Defined.

(** ** Assignments in place and the descents *)

Lemma mem_loc_app (l : loc) (a b : list loc) :
  mem_loc l (a ++ b) = mem_loc l a || mem_loc l b.
Proof. apply existsb_app. Qed.

Lemma logged_put (w : world) (p : place) (d : dict) :
  logged (put w p d) = logged w.
Proof. destruct p as [|[| | | | |l]]; reflexivity. Qed.

(** A descent from [self.data] through at least one segment leaves it. *)
Lemma descend_root (w : world) (keys : list string) :
  descend w keys Root = Some Root -> keys = [].
Proof.
  assert (Hat : forall ks x, descend w ks (At x) <> Some Root).
  { induction ks as [|k' ks IH]; intros x; cbn [descend].
    - discriminate.
    - destruct (contents w (At x)) as [d|]; [|discriminate].
      destruct (dict_get k' d); [apply IH|discriminate]. }
  destruct keys as [|k keys]; [reflexivity|]. cbn [descend contents].
  destruct (dict_get k (self_data w)) as [child|]; [|discriminate].
  intros H. now apply Hat in H.
Qed.

(** The dictionaries a descent looks into, for a path cut in two. *)
Lemma passes_app (w : world) :
  forall (pre rest : list string) (data q : place),
    descend w pre data = Some q ->
    passes w (pre ++ rest) data = (passes w pre data ++ passes w rest q)%list.
Proof.
  induction pre as [|k pre IH]; intros rest data q H; simpl in *.
  - now inversion H.
  - destruct (contents w data) as [d|]; [|discriminate].
    destruct (dict_get k d) as [child|]; [|discriminate].
    rewrite (IH rest _ q H). now rewrite app_assoc.
Qed.

Lemma passes_prefix (w : world) (l : loc) :
  forall (pre rest : list string) (data : place),
    mem_loc l (passes w (pre ++ rest) data) = false ->
    mem_loc l (passes w pre data) = false.
Proof.
  induction pre as [|k pre IH]; intros rest data; [reflexivity|].
  cbn [app passes]. rewrite !mem_loc_app.
  intros H. apply orb_false_iff in H. destruct H as [-> H]. simpl.
  destruct (contents w data) as [d|]; [|reflexivity].
  destruct (dict_get k d) as [child|]; [|reflexivity].
  exact (IH rest _ H).
Qed.

Section HeapFrame.

(** An assignment inside the dictionary object at [l]. *)
Variables (w : world) (l : loc) (d' : dict).

Let w' : world := put w (At (VDict l)) d'.

Lemma lookups_put_heap (k : string) (q : place) :
  mem_loc l (place_loc q) = false ->
  in_at w' k q = in_at w k q /\ item_at w' q k = item_at w q k.
Proof.
  intros H. pose proof (contents_put_heap w l d' q H) as Hc. split.
  - now apply in_at_contents.
  - now apply item_at_contents.
Qed.

(** A descent that looks into other dictionaries only goes as before. *)
Lemma walk_put_heap :
  forall (keys : list string) (data : place),
    mem_loc l (passes w keys data) = false ->
    walk_to w' keys data = walk_to w keys data.
Proof.
  induction keys as [|k keys IH]; intros data; [reflexivity|].
  cbn [passes walk_to]. rewrite mem_loc_app. intros H.
  apply orb_false_iff in H. destruct H as [Hq H].
  destruct (lookups_put_heap k data Hq) as [-> ->].
  destruct (in_at w k data) as [[|]|e]; try reflexivity.
  destruct (item_at w data k) as [child|e] eqn:E; [|reflexivity].
  destruct (item_at_ok _ _ _ _ E) as (d & Hd & Hk).
  rewrite Hd, Hk in H. now apply IH.
Qed.

Lemma descent_put_heap :
  forall (keys : list string) (data : place),
    mem_loc l (passes w keys data) = false ->
    descent_to w' keys data = descent_to w keys data.
Proof.
  induction keys as [|k keys IH]; intros data; [reflexivity|].
  cbn [passes descent_to]. rewrite mem_loc_app. intros H.
  apply orb_false_iff in H. destruct H as [Hq H].
  destruct (lookups_put_heap k data Hq) as [_ ->].
  destruct (item_at w data k) as [child|e] eqn:E; [|reflexivity].
  destruct (item_at_ok _ _ _ _ E) as (d & Hd & Hk).
  rewrite Hd, Hk in H. now apply IH.
Qed.

End HeapFrame.

(** After an assignment inside the dictionary a descent ends in, the same
    descent ends in the same dictionary, provided it did not look into that
    dictionary on its way. *)
Lemma descent_after_put (w : world) (keys : list string) (p : place)
      (d' : dict) :
  descend w keys Root = Some p ->
  ends_off_path w keys = true ->
  descent_to (put w p d') keys Root = Ok p.
Proof.
  intros Hp Hoff. unfold ends_off_path in Hoff. rewrite Hp in Hoff.
  destruct p as [|x].
  - now rewrite (descend_root _ _ Hp).
  - destruct x as [| | | | |l];
      try (simpl; now apply descent_descend).
    rewrite descent_put_heap.
    + now apply descent_descend.
    + now destruct (mem_loc l (passes w keys Root)).
Qed.

(** The assignment at the end of [set]. *)
Lemma py_setitem_dict (w : world) (p : place) (k : string) (v : value) (d : dict) :
  contents w p = Some d ->
  py_setitem p k v w = (Ok tt, put w p (dict_set k v d)).
Proof. unfold py_setitem. now intros ->. Qed.

(** What [set] does when the segments but the last lead to a dictionary. *)
Lemma set_reaches (w : world) (key : string) (v : value) (p : place) (d : dict) :
  descend w (removelast (split_slash key)) Root = Some p ->
  contents w p = Some d ->
  Parameters.set key v w =
  (Ok tt, put w p (dict_set (last (split_slash key) EmptyString) v d)).
Proof.
  intros Hp Hd. rewrite set_eq.
  apply descent_descend in Hp. rewrite Hp. now apply py_setitem_dict.
Qed.

(** When [set] returns normally, it has assigned in a dictionary reached
    through bound keys. *)
Lemma set_ok_reaches (key : string) (v : value) (w : world) :
  fst (Parameters.set key v w) = Ok tt ->
  exists p d,
    descend w (removelast (split_slash key)) Root = Some p /\
    contents w p = Some d.
Proof.
  rewrite set_eq.
  destruct (descent_to w (removelast (split_slash key)) Root) as [p|e] eqn:E;
    [|discriminate].
  apply descent_descend in E. unfold py_setitem.
  destruct (contents w p) as [d|] eqn:Ed; [|discriminate].
  intros _. now exists p, d.
Qed.

(** ** The claims about [set] *)

(** C4, as the claim words it, does not hold: the last segment of the key
    may be absent and [set] then succeeds.  Here the store binds [a] to a
    dictionary without [z], and [set("a/z", 1)] returns normally. *)
Lemma set_absent_segment_may_succeed :
  ~ (forall (key : string) (v : value) (w : world),
        segment_absent key w ->
        exists k : string, fst (Parameters.set key v w) = Raise (KeyError k)).
Proof.
  intros H.
  destruct (H "a/z" (VInt 1) (mkWorld [("a", VDict 0)] [[("b", VInt 1)]] []))
    as (k & Hk).
  - exists ["a"], "z", [], [("b", VInt 1)]. repeat split.
  - discriminate Hk.
Qed.

(** C4, amended: when an intermediate segment of the key is not bound in the
    dictionary the descent has reached, [set] raises [KeyError] for that
    segment, which reaches the caller as the outcome of the call, and the
    store is unchanged.  An absent last segment is not a failure: when the
    intermediate segments lead to a dictionary, [set] returns normally and
    that dictionary then binds the last segment to the value. *)
Theorem set_missing_segment (w : world) (key : string) (v : value) :
  (forall (pre post : list string) (seg : string) (d : dict),
      removelast (split_slash key) = (pre ++ seg :: post)%list ->
      level w pre = Some d ->
      dict_get seg d = None ->
      Parameters.set key v w = (Raise (KeyError seg), w)) /\
  (forall (p : place) (d : dict),
      descend w (removelast (split_slash key)) Root = Some p ->
      contents w p = Some d ->
      Parameters.set key v w =
      (Ok tt, put w p (dict_set (last (split_slash key) EmptyString) v d)) /\
      contents (put w p (dict_set (last (split_slash key) EmptyString) v d)) p =
      Some (dict_set (last (split_slash key) EmptyString) v d) /\
      dict_get (last (split_slash key) EmptyString)
               (dict_set (last (split_slash key) EmptyString) v d) = Some v).
Proof.
  split.
  - intros pre post seg d Hkeys Hpre Hseg.
    destruct (level_contents _ _ _ Hpre) as (p & Hp & Hd).
    rewrite set_eq, Hkeys, (descent_app w pre _ _ _ Hp). simpl.
    now rewrite (item_at_dict _ _ _ _ Hd), Hseg.
  - intros p d Hp Hd. split; [now apply set_reaches|].
    split; [now apply (contents_put_same w p d)|apply dict_get_set_same].
Qed.

Lemma set_missing_segment_witness :
  Parameters.set "a/x/c" (VInt 5)
    (mkWorld [("a", VDict 0)] [[("b", VInt 1)]] []) =
  (Raise (KeyError "x"), mkWorld [("a", VDict 0)] [[("b", VInt 1)]] []) /\
  Parameters.set "a/c" (VInt 5)
    (mkWorld [("a", VDict 0)] [[("b", VInt 1)]] []) =
  (Ok tt, mkWorld [("a", VDict 0)] [[("b", VInt 1); ("c", VInt 5)]] []).
Proof.
  split.
  - apply (proj1 (set_missing_segment
                    (mkWorld [("a", VDict 0)] [[("b", VInt 1)]] [])
                    "a/x/c" (VInt 5))
                 ["a"] [] "x" [("b", VInt 1)]); reflexivity.
  - apply (proj2 (set_missing_segment
                    (mkWorld [("a", VDict 0)] [[("b", VInt 1)]] [])
                    "a/c" (VInt 5))
                 (At (VDict 0)) [("b", VInt 1)]); reflexivity.
Defined.

(** C5, as the claim words it, does not hold on a store in which a mapping
    holds itself.  Such a store is built with [get] and [set] alone (see
    [self_containing_built]).  On it the intermediate segments of ["a/a/a"]
    exist and lead to a mapping, yet after [set("a/a/a", 5)] the mapping
    binds [a] to 5, the descent of [get("a/a/a")] ends on that number and
    the call raises [TypeError]. *)
Lemma set_then_get_self_containing :
  ~ (forall (w : world) (key : string) (v : value) (d : dict),
        is_substring "/" key = true ->
        level w (removelast (split_slash key)) = Some d ->
        fst ((Parameters.set key v ;; Parameters.get key VNone) w) = Ok v).
Proof.
  intros H.
  specialize (H self_containing "a/a/a" (VInt 5) [("a", VDict 0)]
                eq_refl eq_refl).
  discriminate H.
Qed.

(** C5, amended: when the intermediate segments of a key are bound and lead
    to a dictionary that the descent has not looked into on its way there
    (which is so in every store that is a tree), [set(key, v)] followed by
    [get(key)] returns [v], for every value [v].  (A key without a slash has
    no intermediate segment and is covered as well.) *)
Theorem set_then_get (w : world) (key : string) (v : value) (d : dict) :
  level w (removelast (split_slash key)) = Some d ->
  ends_off_path w (removelast (split_slash key)) = true ->
  (Parameters.set key v ;; Parameters.get key VNone) w =
  (Ok v, snd (Parameters.set key v w)).
Proof.
  intros Hlvl Hoff. destruct (level_contents _ _ _ Hlvl) as (p & Hp & Hd).
  pose proof (set_reaches w key v p d Hp Hd) as Hset.
  rewrite (bind_ok _ _ _ _ _ Hset), Hset. cbn [snd].
  pose proof (descent_after_put w _ p
                (dict_set (last (split_slash key) EmptyString) v d) Hp Hoff)
    as Hp'.
  apply descent_descend in Hp'. rewrite (get_reaches _ key VNone p Hp').
  rewrite (final_at_bound _ p _ VNone v _ (contents_put_same w p d _ Hd)
                          (dict_get_set_same _ v d)).
  reflexivity.
Qed.

Lemma set_then_get_witness :
  (Parameters.set "a/b/c" (VStr "v") ;; Parameters.get "a/b/c" VNone)
    (mkWorld [("a", VDict 0); ("x", VInt 1)] [[("b", VDict 1)]; []] []) =
  (Ok (VStr "v"),
   snd (Parameters.set "a/b/c" (VStr "v")
          (mkWorld [("a", VDict 0); ("x", VInt 1)] [[("b", VDict 1)]; []] []))).
Proof.
  apply (set_then_get
           (mkWorld [("a", VDict 0); ("x", VInt 1)] [[("b", VDict 1)]; []] [])
           "a/b/c" (VStr "v") []); reflexivity.
Defined.

(** ** Indexed access *)

(** C6: for every key [k], with or without a slash, and every value [v],
    [store[k] = v] followed by [store[k]] returns [v].  Both are the plain
    operations of the top-level dictionary on the whole of [k]: the write
    leaves [self.data] with [k] itself assigned, the read returns what
    [self.data] binds to [k] itself or raises [KeyError] for [k]. *)
Theorem setitem_then_getitem (w : world) (k : string) (v : value) :
  (Parameters.__setitem__ k v ;; Parameters.__getitem__ k) w =
  (Ok v, mkWorld (dict_set k v (self_data w)) (objects w) (logged w)) /\
  Parameters.__setitem__ k v w =
  (Ok tt, mkWorld (dict_set k v (self_data w)) (objects w) (logged w)) /\
  Parameters.__getitem__ k w =
  (match dict_get k (self_data w) with
   | Some x => Ok x
   | None => Raise (KeyError k)
   end, w).
Proof.
  unfold Parameters.__setitem__, Parameters.__getitem__, py_setitem.
  run. unfold item_at. simpl.
  rewrite dict_get_set_same. split; [|split]; reflexivity.
Qed.

(** ** Task goals *)

(** What [get_task_goals] does for one of its keys, once the membership test
    is made: the stored value, or [None] when the key is absent or its value
    has length zero. *)
Lemma goal_slot_run (name : string) (w : world) :
  absent_or_sized w (dict_get name (self_data w)) = true ->
  (if dict_mem name (self_data w) then
     x <- Parameters.__getitem__ name ;;
     n <- py_len x ;;
     if Nat.eqb n 0 then ret VNone else ret x
   else ret VNone) w =
  (Ok (goal_slot w (dict_get name (self_data w))), w).
Proof.
  rewrite dict_mem_get. unfold Parameters.__getitem__. run.
  unfold item_at. cbn [contents].
  destruct (dict_get name (self_data w)) as [x|] eqn:E; [|reflexivity].
  cbn [absent_or_sized goal_slot]. rewrite E.
  destruct (len_at w x) as [[|n]|e]; try discriminate; reflexivity.
Qed.

(** One slot of [get_task_goals] either yields a value or raises
    [TypeError], and raises when the key is bound to a scalar; the state is
    not touched. *)
Lemma goal_slot_outcome (name : string) (w : world) :
  let slot :=
    (if dict_mem name (self_data w) then
       x <- Parameters.__getitem__ name ;;
       n <- py_len x ;;
       if Nat.eqb n 0 then ret VNone else ret x
     else ret VNone) in
  (slot w = (Raise TypeError, w) \/
   (exists a, slot w = (Ok a, w)) /\
   bound_to_scalar (dict_get name (self_data w)) = false).
Proof.
  cbv zeta. rewrite dict_mem_get. unfold Parameters.__getitem__. run.
  unfold item_at. cbn [contents].
  destruct (dict_get name (self_data w)) as [x|] eqn:E.
  - rewrite E.
    destruct x as [| | |s|l|l]; cbn [len_at bound_to_scalar is_scalar]; auto.
    + right. split; [|reflexivity].
      destruct (Nat.eqb (String.length s) 0); eexists; reflexivity.
    + right. split; [|reflexivity].
      destruct (Nat.eqb (List.length l) 0); eexists; reflexivity.
    + destruct (heap_get l (objects w)) as [d|]; auto.
      right. split; [|reflexivity].
      destruct (Nat.eqb (List.length d) 0); eexists; reflexivity.
  - right. split; [eexists; reflexivity|reflexivity].
Qed.

Lemma py_in_root (name : string) (w : world) :
  py_in name Root w = (Ok (dict_mem name (self_data w)), w).
Proof. reflexivity. Qed.

(** C7, as the claim words it slot by slot, does not hold: a slot is what the
    claim says only if the call returns, and the call raises [TypeError]
    when the other key is bound to a value without a length.  Here
    [object_to_find] is the non-empty string ["cup"] and [location_to_place]
    is [None]: no pair is returned. *)
Lemma get_task_goals_other_slot_raises :
  ~ (forall w : world,
        absent_or_sequence (dict_get "object_to_find" (self_data w)) = true ->
        exists other : value,
          fst (Parameters.get_task_goals w) =
          Ok (goal_slot w (dict_get "object_to_find" (self_data w)), other)).
Proof.
  intros H.
  destruct (H (mkWorld [("object_to_find", VStr "cup");
                        ("location_to_place", VNone)] [] []) eq_refl)
    as (other & Hother).
  discriminate Hother.
Qed.

(** C7, amended: when each of the two keys is absent or bound to a value
    that has a length (a string, a list or a mapping), [get_task_goals()]
    returns the pair (object_to_find, location_to_place), in that order.
    Each slot is the stored value when its top-level key is bound to a value
    of length other than zero, and [None] when the key is absent and when it
    is bound to an empty value, such as the empty string. *)
Theorem get_task_goals_slots (w : world) :
  absent_or_sized w (dict_get "object_to_find" (self_data w)) = true ->
  absent_or_sized w (dict_get "location_to_place" (self_data w)) = true ->
  Parameters.get_task_goals w =
  (Ok (goal_slot w (dict_get "object_to_find" (self_data w)),
       goal_slot w (dict_get "location_to_place" (self_data w))), w).
Proof.
  intros Hobj Hloc. unfold Parameters.get_task_goals.
  eapply bind_ok_eq; [apply py_in_root|].
  eapply bind_ok_eq; [exact (goal_slot_run "object_to_find" w Hobj)|].
  eapply bind_ok_eq; [apply py_in_root|].
  eapply bind_ok_eq; [exact (goal_slot_run "location_to_place" w Hloc)|].
  reflexivity.
Qed.

Lemma get_task_goals_slots_witness :
  Parameters.get_task_goals
    (mkWorld [("object_to_find", VStr ""); ("location_to_place", VStr "table")]
             [] []) =
  (Ok (VNone, VStr "table"),
   mkWorld [("object_to_find", VStr ""); ("location_to_place", VStr "table")]
           [] []) /\
  Parameters.get_task_goals
    (mkWorld [("object_to_find", VStr "cup"); ("location_to_place", VDict 0)]
             [[("room", VStr "kitchen")]] []) =
  (Ok (VStr "cup", VDict 0),
   mkWorld [("object_to_find", VStr "cup"); ("location_to_place", VDict 0)]
           [[("room", VStr "kitchen")]] []).
Proof.
  split.
  - apply (get_task_goals_slots
             (mkWorld [("object_to_find", VStr "");
                       ("location_to_place", VStr "table")] [] []));
      reflexivity.
  - apply (get_task_goals_slots
             (mkWorld [("object_to_find", VStr "cup");
                       ("location_to_place", VDict 0)]
                      [[("room", VStr "kitchen")]] []));
      reflexivity.
Defined.

(** ** The reachability flag *)

(** C8: [guarantee_instance_is_reachable] looks its own name up in the
    top-level dictionary and nowhere else: it returns the value bound to it
    when there is one and [False] when there is none. *)
Theorem guarantee_instance_is_reachable_lookup (w : world) :
  Parameters.guarantee_instance_is_reachable w =
  (Ok (match dict_get "guarantee_instance_is_reachable" (self_data w) with
       | Some x => x
       | None => VBool false
       end), w).
Proof.
  unfold Parameters.guarantee_instance_is_reachable. run.
  rewrite dict_mem_get. unfold item_at. cbn [contents].
  destruct (dict_get "guarantee_instance_is_reachable" (self_data w)) eqn:E;
    simpl; [rewrite E|]; reflexivity.
Qed.

(** ** Textual rendering *)

Lemma str_render (repr_str : string -> string)
      (repr_dict : heap -> loc -> string) (w : world) :
  Parameters.__str__ repr_str repr_dict w =
  (Ok (String.concat newline
         (map (render_line (py_str repr_str repr_dict (objects w)))
              (self_data w))), w).
Proof.
  unfold Parameters.__str__. run.
  destruct (self_data w) as [|[k v] items]; [reflexivity|].
  cbn [Parameters.str_loop Nat.ltb Nat.leb map].
  rewrite str_loop_succ, concat_newline, map_map. reflexivity.
Qed.

(** C9: the rendering of a store is the lines ["{key}: {value}"] of its
    top-level items, one per key and in the order of the dictionary, which is
    the order of insertion, joined by single newline characters with none at
    the end; the store built as {"x": 1, "y": 2} renders as
    ["x: 1\ny: 2"]. *)
Theorem str_lines (repr_str : string -> string)
        (repr_dict : heap -> loc -> string) (w : world) :
  Parameters.__str__ repr_str repr_dict w =
  (Ok (String.concat newline
         (map (render_line (py_str repr_str repr_dict (objects w)))
              (self_data w))), w) /\
  List.length (map (render_line (py_str repr_str repr_dict (objects w)))
                   (self_data w)) =
  List.length (self_data w) /\
  forall (h : heap) (logs : list log_entry),
    Parameters.__str__ repr_str repr_dict
                       (mkWorld [("x", VInt 1); ("y", VInt 2)] h logs) =
    (Ok ("x: 1" ++ newline ++ "y: 2"),
     mkWorld [("x", VInt 1); ("y", VInt 2)] h logs).
Proof.
  split; [|split; [apply length_map|reflexivity]].
  unfold Parameters.__str__. run.
  destruct (self_data w) as [|[k v] items]; [reflexivity|].
  cbn [Parameters.str_loop Nat.ltb Nat.leb map].
  rewrite str_loop_succ, concat_newline, map_map. reflexivity.
Qed.

(** ** The methods on concrete stores *)

Example split_slash_segments_kept :
  split_slash "a//b/" = ["a"; ""; "b"; ""].
Proof. reflexivity. Qed.

Example get_nested : Parameters.get "a/b/c" VNone sample = (Ok (VInt 3), sample).
Proof. reflexivity. Qed.

Example get_hands_out_the_mapping :
  Parameters.get "a/b" VNone sample = (Ok (VDict 1), sample).
Proof. reflexivity. Qed.

Example get_last_segment_absent :
  Parameters.get "a/b/z" VNone sample = (Raise (KeyError "z"), sample) /\
  Parameters.get "a/b/z" (VInt 0) sample = (Ok (VInt 0), sample).
Proof. split; reflexivity. Qed.

Example get_through_string :
  Parameters.get "name/tre/z" (VInt 0) sample = (Raise TypeError, sample).
Proof. reflexivity. Qed.

Example set_through_scalar :
  Parameters.set "x/y" (VInt 0) sample = (Raise TypeError, sample).
Proof. reflexivity. Qed.

Example set_new_top_level_key :
  Parameters.set "x" (VInt 1) (mkWorld [] [] []) =
  (Ok tt, mkWorld [("x", VInt 1)] [] []).
Proof. reflexivity. Qed.

Example setitem_keeps_slash :
  Parameters.__setitem__ "a/b" (VInt 9) one_mapping =
  (Ok tt, mkWorld [("a", VDict 0); ("a/b", VInt 9)] [[]] []).
Proof. reflexivity. Qed.

(** Storing under [a/a] the mapping that [get("a")] hands out makes that
    mapping hold itself. *)
Example self_containing_built :
  (x <- Parameters.get "a" VNone ;; Parameters.set "a/a" x) one_mapping =
  (Ok tt, self_containing).
Proof. reflexivity. Qed.

(** Storing it under [b] makes one mapping sit under two keys: an assignment
    through [a] is then read through [b]. *)
Example one_mapping_under_two_keys :
  (x <- Parameters.get "a" VNone ;;
   Parameters.set "b" x ;;
   Parameters.set "a/x" (VInt 1) ;;
   Parameters.get "b/x" VNone) one_mapping =
  (Ok (VInt 1),
   mkWorld [("a", VDict 0); ("b", VDict 0)] [[("x", VInt 1)]] []).
Proof. reflexivity. Qed.

Example set_then_get_on_self_containing :
  (Parameters.set "a/a/a" (VInt 5) ;; Parameters.get "a/a/a" VNone)
    self_containing =
  (Raise TypeError, mkWorld [("a", VDict 0)] [[("a", VInt 5)]] []).
Proof. reflexivity. Qed.

(** * Further properties of the methods *)

(** ** What [set] changes *)

(** X7: [set] never writes to the log, and a call that raises leaves the
    store as it was: the only assignment is the last statement. *)
Theorem set_effects (key : string) (v : value) (w : world) :
  logged (snd (Parameters.set key v w)) = logged w /\
  forall e, fst (Parameters.set key v w) = Raise e ->
            snd (Parameters.set key v w) = w.
Proof.
  rewrite set_eq.
  destruct (descent_to w (removelast (split_slash key)) Root) as [p|e];
    [|now split].
  unfold py_setitem. destruct (contents w p) as [d|]; [|now split].
  cbn [fst snd]. split; [apply logged_put|]. intros e He. discriminate He.
Qed.

(** X8: [set] returns normally exactly when the segments of the key but the
    last lead, through bound keys, to a dictionary; whether the last segment
    is bound there plays no part. *)
Theorem set_succeeds_iff (key : string) (v : value) (w : world) :
  fst (Parameters.set key v w) = Ok tt <->
  exists d : dict, level w (removelast (split_slash key)) = Some d.
Proof.
  split.
  - intros H. destruct (set_ok_reaches _ _ _ H) as (p & d & Hp & Hd).
    exists d. unfold level. now rewrite Hp.
  - intros (d & H). destruct (level_contents _ _ _ H) as (p & Hp & Hd).
    now rewrite (set_reaches w key v p d Hp Hd).
Qed.

(** X9: whenever [set(key, v)] returns normally, having assigned in a
    dictionary that the descent had not looked into on its way there,
    [get(key, default)] on the resulting store returns [v], for every
    default, and logs nothing. *)
Theorem set_ok_then_get (key : string) (v default : value) (w : world) :
  fst (Parameters.set key v w) = Ok tt ->
  ends_off_path w (removelast (split_slash key)) = true ->
  Parameters.get key default (snd (Parameters.set key v w)) =
  (Ok v, snd (Parameters.set key v w)).
Proof.
  intros Hok Hoff. destruct (set_ok_reaches _ _ _ Hok) as (p & d & Hp & Hd).
  rewrite (set_reaches w key v p d Hp Hd). cbn [snd].
  pose proof (descent_after_put w _ p
                (dict_set (last (split_slash key) EmptyString) v d) Hp Hoff)
    as Hp'.
  apply descent_descend in Hp'. rewrite (get_reaches _ key default p Hp').
  now rewrite (final_at_bound _ p _ default v _ (contents_put_same w p d _ Hd)
                              (dict_get_set_same _ v d)).
Qed.

Lemma set_ok_then_get_witness :
  Parameters.get "a/b/n" (VInt 0) (snd (Parameters.set "a/b/n" (VStr "v") sample)) =
  (Ok (VStr "v"), snd (Parameters.set "a/b/n" (VStr "v") sample)).
Proof.
  apply (set_ok_then_get "a/b/n" (VStr "v") (VInt 0) sample); reflexivity.
Defined.

(** ** How calls of [set] compose *)

(** X10: the last write wins.  When the descent of the key does not end in a
    dictionary it has looked into on its way, two calls of [set] on that key,
    one after the other, have the outcome and leave the state of the second
    call alone; in particular a key is never bound twice and a failure of the
    first call is the failure of the second. *)
Theorem set_twice (key : string) (v1 v2 : value) (w : world) :
  ends_off_path w (removelast (split_slash key)) = true ->
  (Parameters.set key v1 ;; Parameters.set key v2) w = Parameters.set key v2 w.
Proof.
  intros Hoff.
  destruct (descent_to w (removelast (split_slash key)) Root) as [p|e] eqn:E.
  - destruct (contents w p) as [d|] eqn:Ed.
    + apply descent_descend in E.
      rewrite (bind_ok _ _ _ _ _ (set_reaches w key v1 p d E Ed)).
      rewrite (set_reaches w key v2 p d E Ed).
      pose proof (descent_after_put w _ p
                    (dict_set (last (split_slash key) EmptyString) v1 d) E Hoff)
        as E'.
      apply descent_descend in E'.
      rewrite (set_reaches _ key v2 p _ E' (contents_put_same w p d _ Ed)).
      now rewrite put_put, dict_set_set.
    + assert (H : forall v, Parameters.set key v w = (Raise TypeError, w)).
      { intros v. rewrite set_eq, E. unfold py_setitem. now rewrite Ed. }
      now rewrite (bind_raise _ _ _ _ _ (H v1)), H.
  - assert (H : forall v, Parameters.set key v w = (Raise e, w)).
    { intros v. now rewrite set_eq, E. }
    now rewrite (bind_raise _ _ _ _ _ (H v1)), H.
Qed.

Lemma set_twice_witness :
  (Parameters.set "a/b/c" (VInt 1) ;; Parameters.set "a/b/c" (VInt 2)) sample =
  Parameters.set "a/b/c" (VInt 2) sample.
Proof.
  apply (set_twice "a/b/c" (VInt 1) (VInt 2) sample). reflexivity.
Defined.

(** X11: writing back what is there is a no-op.  When the segments but the
    last lead to a dictionary that binds the last one to [v], [set(key, v)]
    returns normally and the state, order of the keys included, is the one
    before the call. *)
Theorem set_same_value (key : string) (v : value) (w : world) (d : dict) :
  level w (removelast (split_slash key)) = Some d ->
  dict_get (last (split_slash key) EmptyString) d = Some v ->
  Parameters.set key v w = (Ok tt, w).
Proof.
  intros Hlvl Hv. destruct (level_contents _ _ _ Hlvl) as (p & Hp & Hd).
  rewrite (set_reaches w key v p d Hp Hd).
  now rewrite (dict_set_same_value _ _ _ Hv), (put_same _ _ _ Hd).
Qed.

Lemma set_same_value_witness :
  Parameters.set "a/b/c" (VInt 3) sample = (Ok tt, sample).
Proof.
  apply (set_same_value "a/b/c" (VInt 3) sample [("c", VInt 3)]); reflexivity.
Defined.

(** With a slash in the key, the descent of [set] has left [self.data]. *)
Lemma descend_slash_not_root (w : world) (key : string) :
  is_substring "/" key = true ->
  descend w (removelast (split_slash key)) Root <> Some Root.
Proof.
  intros Hslash H. apply descend_root in H.
  destruct (split_slash_two key Hslash) as (a & b & l & Hs).
  rewrite Hs in H. discriminate H.
Qed.

(** X12: [set] assigns in one dictionary only.  With a slash in the key the
    items of [self.data] itself are after the call what they were before it:
    the same keys in the same order, referring to the same objects.  And
    whatever the key, every dictionary object other than the one the descent
    ends in has the items it had, whether the call succeeds or raises.  What
    a key other than the first segment is bound to can therefore change only
    by being, or holding, the dictionary assigned in. *)
Theorem set_changes_one_dictionary (key : string) (v : value) (w : world) :
  (is_substring "/" key = true ->
   self_data (snd (Parameters.set key v w)) = self_data w) /\
  (forall l : loc,
      mem_loc l (target w key) = false ->
      heap_get l (objects (snd (Parameters.set key v w))) =
      heap_get l (objects w)).
Proof.
  rewrite set_eq. unfold target.
  destruct (descent_to w (removelast (split_slash key)) Root) as [p|e] eqn:E;
    [|now split].
  apply descent_descend in E. rewrite E.
  unfold py_setitem. destruct (contents w p) as [d|]; [|now split].
  cbn [snd]. split.
  - intros Hslash. destruct p as [|[| | | | |l0]]; try reflexivity.
    now destruct (descend_slash_not_root w key Hslash).
  - intros l Hl. destruct p as [|[| | | | |l0]]; try reflexivity.
    cbn [put objects]. apply heap_get_set_other.
    simpl in Hl. rewrite orb_false_r in Hl.
    intros ->. now rewrite Nat.eqb_refl in Hl.
Qed.

Lemma set_changes_one_dictionary_witness :
  self_data (snd (Parameters.set "a/b/c" VNone sample)) = self_data sample /\
  heap_get 0 (objects (snd (Parameters.set "a/b/c" VNone sample))) =
  heap_get 0 (objects sample).
Proof.
  split.
  - apply (proj1 (set_changes_one_dictionary "a/b/c" VNone sample)).
    reflexivity.
  - apply (proj2 (set_changes_one_dictionary "a/b/c" VNone sample) 0).
    reflexivity.
Defined.

(** X13: [set] keeps the top-level keys in their order.  The only call that
    adds one is that with a key without a slash that is not bound yet, and
    the new key then comes last; in every other case, failures included, the
    top-level keys after the call are those before it, in the same order. *)
Theorem set_top_level_order (key : string) (v : value) (w : world) :
  map fst (self_data (snd (Parameters.set key v w))) =
  if negb (is_substring "/" key) && negb (dict_mem key (self_data w))
  then (map fst (self_data w) ++ [key])%list
  else map fst (self_data w).
Proof.
  destruct (is_substring "/" key) eqn:Hslash; cbn [negb andb].
  - rewrite set_eq.
    destruct (descent_to w (removelast (split_slash key)) Root) as [p|e] eqn:E;
      [|reflexivity].
    apply descent_descend in E.
    unfold py_setitem. destruct (contents w p) as [d|]; [|reflexivity].
    cbn [snd]. destruct p as [|[| | | | |l0]]; try reflexivity.
    now destruct (descend_slash_not_root w key Hslash).
  - unfold Parameters.set. rewrite Hslash. unfold py_setitem. simpl.
    rewrite dict_set_keys. now destruct (dict_mem key (self_data w)).
Qed.

(** ** Reading after an assignment elsewhere *)

(** The descent below [self.data] only looks at the heap. *)
Lemma contents_at_objects (w1 w2 : world) (x : value) :
  objects w1 = objects w2 -> contents w1 (At x) = contents w2 (At x).
Proof. intros H. destruct x; simpl; try reflexivity. now rewrite H. Qed.

Lemma walk_at_objects (w1 w2 : world) :
  objects w1 = objects w2 ->
  forall (keys : list string) (x : value),
    walk_to w1 keys (At x) = walk_to w2 keys (At x).
Proof.
  intros Hobj. induction keys as [|k keys IH]; intros x; [reflexivity|].
  cbn [walk_to].
  rewrite (in_at_contents w1 w2 k _ (contents_at_objects w1 w2 x Hobj)).
  rewrite (item_at_contents w1 w2 k _ (contents_at_objects w1 w2 x Hobj)).
  destruct (in_at w2 k (At x)) as [[|]|e]; try reflexivity.
  destruct (item_at w2 (At x) k); [apply IH|reflexivity].
Qed.

Lemma walk_at_reached (w : world) :
  forall (keys : list string) (x : value) (p : place),
    walk_to w keys (At x) = Reached p -> exists y, p = At y.
Proof.
  induction keys as [|k keys IH]; intros x p; cbn [walk_to].
  - intros H. inversion H. now exists x.
  - destruct (in_at w k (At x)) as [[|]|e]; try discriminate.
    destruct (item_at w (At x) k); [apply IH|discriminate].
Qed.

(** Lookups of a key in [self.data] do not see an assignment to another
    key. *)
Lemma lookups_root_assignment (w : world) (k a : string) (x : value) :
  k <> a ->
  in_at (put w Root (dict_set a x (self_data w))) k Root = in_at w k Root /\
  item_at (put w Root (dict_set a x (self_data w))) Root k = item_at w Root k.
Proof.
  intros Hk. unfold item_at. simpl.
  rewrite !dict_mem_get, (dict_get_set_other k a x _ Hk). now split.
Qed.

(** [get] does not see an assignment in [self.data] to a key other than the
    first segment of the key it is called with. *)
Lemma get_after_root_assignment (key : string) (default : value) (a : string)
      (x : value) (w : world) :
  first_segment key <> a ->
  same_outcome
    (Parameters.get key default (put w Root (dict_set a x (self_data w))))
    (Parameters.get key default w).
Proof.
  intros Hk. unfold first_segment in Hk.
  set (w' := put w Root (dict_set a x (self_data w))).
  assert (Hobj : objects w' = objects w) by reflexivity.
  assert (Hlog : logged w' = logged w) by reflexivity.
  destruct (is_substring "/" key) eqn:Hslash.
  - rewrite !get_walk.
    destruct (split_slash_two key Hslash) as (s0 & s1 & l & Hs).
    rewrite Hs in *. cbn [hd] in Hk.
    change (removelast (s0 :: s1 :: l)) with (s0 :: removelast (s1 :: l)).
    cbn [walk_to].
    destruct (lookups_root_assignment w s0 a x Hk) as [Hin Hitem].
    fold w' in Hin, Hitem. rewrite Hin, Hitem.
    destruct (in_at w s0 Root) as [[|]|e].
    + destruct (item_at w Root s0) as [child|e]; [|now split].
      rewrite (walk_at_objects w' w Hobj).
      destruct (walk_to w (removelast (s1 :: l)) (At child)) as [p| |e] eqn:E.
      * destruct (walk_at_reached _ _ _ _ E) as (y & ->).
        rewrite (final_at_contents w' w _ _ default
                                   (contents_at_objects w' w y Hobj)).
        now split.
      * now split.
      * now split.
    + now split.
    + now split.
  - rewrite !get_flat by exact Hslash.
    rewrite split_slash_flat in Hk by exact Hslash. cbn [hd] in Hk.
    destruct (lookups_root_assignment w key a x Hk) as [Hin Hitem].
    fold w' in Hin, Hitem. unfold final_at. rewrite Hin, Hitem. now split.
Qed.

(** A segment of a key is never a key with a slash. *)
Lemma first_segment_no_slash (key : string) :
  is_substring "/" (first_segment key) = false.
Proof.
  unfold first_segment. pose proof (split_slash_segments key) as H.
  destruct (split_slash key); [reflexivity|]. now inversion H.
Qed.

(** X14: an indexed write under a key with a slash is out of reach of
    [get].  After [store[k] = v] with a slash in [k], [get(k, default)] has
    the outcome and logs what it would have without the write: it looks the
    segments of [k] up, never [k] itself. *)
Theorem setitem_slash_unseen_by_get (k : string) (v default : value) (w : world) :
  is_substring "/" k = true ->
  fst (Parameters.get k default (snd (Parameters.__setitem__ k v w))) =
  fst (Parameters.get k default w) /\
  logged (snd (Parameters.get k default (snd (Parameters.__setitem__ k v w)))) =
  logged (snd (Parameters.get k default w)).
Proof.
  intros Hslash.
  change (snd (Parameters.__setitem__ k v w))
    with (put w Root (dict_set k v (self_data w))).
  apply get_after_root_assignment.
  intros E. pose proof (first_segment_no_slash k) as H.
  rewrite E, Hslash in H. discriminate.
Qed.

Lemma setitem_slash_unseen_by_get_witness :
  fst (Parameters.get "a/b/c" VNone
         (snd (Parameters.__setitem__ "a/b/c" (VInt 9) sample))) =
  fst (Parameters.get "a/b/c" VNone sample) /\
  logged (snd (Parameters.get "a/b/c" VNone
                 (snd (Parameters.__setitem__ "a/b/c" (VInt 9) sample)))) =
  logged (snd (Parameters.get "a/b/c" VNone sample)).
Proof.
  apply (setitem_slash_unseen_by_get "a/b/c" (VInt 9) VNone sample).
  reflexivity.
Defined.

(** [get] does not see an assignment inside a dictionary object it does not
    look into. *)
Lemma get_after_heap_assignment (key : string) (default : value) (l : loc)
      (d' : dict) (w : world) :
  mem_loc l (passes w (split_slash key) Root) = false ->
  same_outcome (Parameters.get key default (put w (At (VDict l)) d'))
               (Parameters.get key default w).
Proof.
  intros Hoff. rewrite !get_walk.
  rewrite (app_removelast_last EmptyString (split_slash_nonempty key)) in Hoff.
  rewrite (walk_put_heap w l d' _ _ (passes_prefix w l _ _ _ Hoff)).
  destruct (walk_to w (removelast (split_slash key)) Root) as [q| |e] eqn:E.
  - apply walk_reached in E. rewrite (passes_app w _ _ _ _ E) in Hoff.
    rewrite mem_loc_app in Hoff. apply orb_false_iff in Hoff.
    destruct Hoff as [_ Hq]. cbn [passes] in Hq.
    rewrite mem_loc_app in Hq. apply orb_false_iff in Hq.
    destruct Hq as [Hq _].
    rewrite (final_at_contents _ w _ q default (contents_put_heap w l d' q Hq)).
    now split.
  - now split.
  - now split.
Qed.

(** X15: [set] does not disturb a read that keeps off the dictionary it
    assigns in.  For a key with a slash, when the dictionary in which
    [set(key, v)] assigns is none of those in which [get(key', default)]
    looks a segment up, that [get] has the same outcome and logs the same
    after the [set] as before it, whether the [set] succeeds or raises. *)
Theorem set_unseen_off_path (key key' : string) (v default : value)
        (w : world) :
  is_substring "/" key = true ->
  off_the_path w key key' = true ->
  fst (Parameters.get key' default (snd (Parameters.set key v w))) =
  fst (Parameters.get key' default w) /\
  logged (snd (Parameters.get key' default (snd (Parameters.set key v w)))) =
  logged (snd (Parameters.get key' default w)).
Proof.
  intros Hslash Hoff. unfold off_the_path, target in Hoff.
  rewrite set_eq.
  destruct (descent_to w (removelast (split_slash key)) Root) as [p|e] eqn:E;
    [|now split].
  apply descent_descend in E. rewrite E in Hoff.
  unfold py_setitem. destruct (contents w p) as [d|]; [|now split].
  cbn [snd]. destruct p as [|[| | | | |l0]]; try (now split).
  - now destruct (descend_slash_not_root w key Hslash).
  - apply get_after_heap_assignment.
    simpl in Hoff. rewrite andb_true_r in Hoff.
    now destruct (mem_loc l0 (passes w (split_slash key') Root)).
Qed.

Lemma set_unseen_off_path_witness :
  fst (Parameters.get "a/k" VNone (snd (Parameters.set "a/b/c" VNone sample))) =
  fst (Parameters.get "a/k" VNone sample) /\
  logged (snd (Parameters.get "a/k" VNone
                 (snd (Parameters.set "a/b/c" VNone sample)))) =
  logged (snd (Parameters.get "a/k" VNone sample)).
Proof.
  apply (set_unseen_off_path "a/b/c" "a/k" VNone VNone sample); reflexivity.
Defined.

(** ** [set] at a level that is no dictionary *)

(** X16: [set] raises [TypeError], and changes nothing, when some segment of
    the key, intermediate or last, is to be used in a level that is not a
    dictionary: a string and a list are refused like a number, where [get]
    would test them for membership. *)
Theorem set_non_dict_level (w : world) (key : string) (v : value)
        (pre post : list string) (seg : string) (lvl : value) :
  split_slash key = (pre ++ seg :: post)%list ->
  descend w pre Root = Some (At lvl) ->
  is_dict lvl = false ->
  Parameters.set key v w = (Raise TypeError, w).
Proof.
  intros Hkeys Hpre Hlvl. rewrite set_eq, Hkeys.
  assert (Hc : contents w (At lvl) = None)
    by (destruct lvl; try reflexivity; discriminate).
  destruct post as [|seg' post].
  - rewrite removelast_last, last_last.
    apply descent_descend in Hpre. rewrite Hpre.
    unfold py_setitem. now rewrite Hc.
  - rewrite removelast_cut, (descent_app w pre _ _ _ Hpre).
    cbn [descent_to]. unfold item_at. now rewrite Hc.
Qed.

Lemma set_non_dict_level_witness :
  Parameters.set "name/first" (VStr "s") sample = (Raise TypeError, sample).
Proof.
  apply (set_non_dict_level sample "name/first" (VStr "s") ["name"] [] "first"
                            (VStr "stretch")); reflexivity.
Defined.

(** ** Keys without a slash and indexed access *)

(** X17: on a key without a slash the methods are the indexed accesses:
    [get(k)] with the default [None] is [store[k]], [KeyError] included, and
    [set(k, v)] is [store[k] = v]. *)
Theorem flat_key_is_indexed_access (k : string) (v : value) (w : world) :
  is_substring "/" k = false ->
  Parameters.get k VNone w = Parameters.__getitem__ k w /\
  Parameters.set k v w = Parameters.__setitem__ k v w.
Proof.
  intros Hflat. split.
  - rewrite get_flat by exact Hflat. reflexivity.
  - unfold Parameters.set, Parameters.__setitem__. now rewrite Hflat.
Qed.

Lemma flat_key_is_indexed_access_witness :
  Parameters.get "x" VNone sample = Parameters.__getitem__ "x" sample /\
  Parameters.set "x" (VInt 2) sample = Parameters.__setitem__ "x" (VInt 2) sample.
Proof.
  apply (flat_key_is_indexed_access "x" (VInt 2) sample). reflexivity.
Defined.

(** X18: how a key is cut into a path.  The segments, joined by slashes,
    give the key back, so distinct keys are distinct paths; no segment
    contains a slash; and the key has a slash, which is when [get] and [set]
    descend, exactly when it has more than one segment. *)
Theorem key_segments (key : string) :
  String.concat "/" (split_slash key) = key /\
  Forall (fun seg => is_substring "/" seg = false) (split_slash key) /\
  (is_substring "/" key = true <-> 2 <= List.length (split_slash key)).
Proof.
  split; [apply concat_split_slash|]. split; [apply split_slash_segments|].
  split.
  - intros H. destruct (split_slash_two key H) as (a & b & l & ->).
    simpl. lia.
  - intros H. destruct (is_substring "/" key) eqn:E; [reflexivity|].
    rewrite (split_slash_flat key E) in H. simpl in H. lia.
Qed.

(** ** Task goals and the accessors *)

(** X19: [get_task_goals] raises [TypeError] as soon as one of its two keys
    is bound to [None], a boolean or a number: [len] is taken of whatever is
    stored, so a goal left as a null in the configuration is not read as an
    absent goal. *)
Theorem get_task_goals_scalar (w : world) :
  bound_to_scalar (dict_get "object_to_find" (self_data w))
  || bound_to_scalar (dict_get "location_to_place" (self_data w)) = true ->
  Parameters.get_task_goals w = (Raise TypeError, w).
Proof.
  intros H. unfold Parameters.get_task_goals.
  eapply bind_ok_eq; [apply py_in_root|].
  destruct (goal_slot_outcome "object_to_find" w) as [Hobj|[(a & Hobj) Hs]].
  - now apply bind_raise.
  - eapply bind_ok_eq; [exact Hobj|].
    eapply bind_ok_eq; [apply py_in_root|].
    rewrite Hs in H. cbn [orb] in H.
    destruct (goal_slot_outcome "location_to_place" w) as [Hloc|[_ Hs']].
    + now apply bind_raise.
    + rewrite Hs' in H. discriminate.
Qed.

Lemma get_task_goals_scalar_witness :
  Parameters.get_task_goals
    (mkWorld [("object_to_find", VStr "cup"); ("location_to_place", VNone)]
             [] []) =
  (Raise TypeError,
   mkWorld [("object_to_find", VStr "cup"); ("location_to_place", VNone)]
           [] []).
Proof.
  apply (get_task_goals_scalar
           (mkWorld [("object_to_find", VStr "cup");
                     ("location_to_place", VNone)] [] [])).
  reflexivity.
Defined.

(** X20: [get_task_goals] never changes the state and raises nothing but
    [TypeError]: each of its two indexed reads is guarded by a membership
    test, so an absent key is no [KeyError]. *)
Theorem get_task_goals_outcome (w : world) :
  snd (Parameters.get_task_goals w) = w /\
  forall e, fst (Parameters.get_task_goals w) = Raise e -> e = TypeError.
Proof.
  unfold Parameters.get_task_goals.
  rewrite (bind_ok _ _ w w _ (py_in_root "object_to_find" w)).
  destruct (goal_slot_outcome "object_to_find" w) as [Hobj|[(a & Hobj) _]].
  - rewrite (bind_raise _ _ _ _ _ Hobj). split; [reflexivity|].
    intros e He. now inversion He.
  - rewrite (bind_ok _ _ _ _ _ Hobj).
    rewrite (bind_ok _ _ w w _ (py_in_root "location_to_place" w)).
    destruct (goal_slot_outcome "location_to_place" w) as [Hloc|[(b & Hloc) _]].
    + rewrite (bind_raise _ _ _ _ _ Hloc). split; [reflexivity|].
      intros e He. now inversion He.
    + rewrite (bind_ok _ _ _ _ _ Hloc). split; [reflexivity|].
      intros e He. discriminate He.
Qed.

(** ** Construction *)


(** ** Rendering after an assignment *)

Lemma concat_newline_snoc (l : list string) (x : string) :
  l <> [] ->
  String.concat newline (l ++ [x]) = String.concat newline l ++ newline ++ x.
Proof.
  induction l as [|y l IH]; [contradiction|]. intros _.
  destruct l as [|z l]; [reflexivity|].
  change (String.concat newline ((y :: z :: l) ++ [x]))
    with (y ++ newline ++ String.concat newline ((z :: l) ++ [x])).
  rewrite IH by discriminate.
  change (String.concat newline (y :: z :: l))
    with (y ++ newline ++ String.concat newline (z :: l)).
  now rewrite !append_assoc.
Qed.

(** X22: a new parameter shows up as the last line.  After [set(k, v)] for
    a key without a slash that a non-empty store does not bind yet, the
    rendering is the rendering before the call followed by a newline and the
    line of [k]. *)
Theorem str_after_new_key (repr_str : string -> string)
        (repr_dict : heap -> loc -> string) (k : string)
        (v : value) (w : world) :
  is_substring "/" k = false ->
  dict_get k (self_data w) = None ->
  self_data w <> [] ->
  fst ((Parameters.set k v ;; Parameters.__str__ repr_str repr_dict) w) =
  match fst (Parameters.__str__ repr_str repr_dict w) with
  | Ok before =>
      Ok (before ++ newline ++ k ++ ": "
                 ++ py_str repr_str repr_dict (objects w) v)
  | Raise e => Raise e
  end.
Proof.
  intros Hflat Hk Hne. rewrite str_render. cbn [fst].
  unfold Parameters.set. rewrite Hflat. unfold bind at 1, py_setitem.
  cbn [contents put].
  rewrite str_render. cbn [fst self_data objects].
  rewrite (dict_set_fresh k v _ Hk), map_app. cbn [map].
  rewrite concat_newline_snoc; [reflexivity|].
  destruct (self_data w); [contradiction|discriminate].
Qed.

Lemma str_after_new_key_witness :
  fst ((Parameters.set "y" (VInt 2) ;;
        Parameters.__str__ (fun s => s) (fun _ _ => EmptyString))
         (mkWorld [("x", VInt 1)] [] [])) =
  match fst (Parameters.__str__ (fun s => s) (fun _ _ => EmptyString)
                                (mkWorld [("x", VInt 1)] [] [])) with
  | Ok before =>
      Ok (before ++ newline ++ "y" ++ ": "
                 ++ py_str (fun s => s) (fun _ _ => EmptyString) [] (VInt 2))
  | Raise e => Raise e
  end.
Proof.
  apply (str_after_new_key (fun s => s) (fun _ _ => EmptyString) "y" (VInt 2)
                           (mkWorld [("x", VInt 1)] [] []));
    [reflexivity|reflexivity|discriminate].
Defined.
